(** * Granite render-graph front end: single-pass downsample, scene viewer
      application and the type-erased [Variant] holder.

    Shallow embedding of
      - the depth-hierarchy (SPD) pass set-up and its capability query,
      - [SceneViewerApplication] (swap-chain handler, frame loop, G-buffer
        clear values),
      - [Granite::Variant] (util/variant.hpp),
    together with a model of the graph scheduler as the design document
    describes it.

    C [unsigned]/[uint32_t] values are [Z] with the wrap-around written out,
    Vulkan flag words are [Z] inspected with [Z.land], [float] values are
    their IEEE-754 binary32 encodings, pointers that may be null are
    [option], and code that can run into undefined behaviour returns
    [option] ([None]: the C++ execution has no defined result). *)

From Stdlib Require Import ZArith Lia List Bool String.
From stdpp Require Import base option list relations gmap strings.

Local Open Scope Z_scope.

(** ** Machine numbers *)

Definition u32_mod : Z := 2 ^ 32.

(** Result of an [unsigned] arithmetic expression. *)
Definition wrap32 (z : Z) : Z := z mod u32_mod.

Definition is_u32 (z : Z) : Prop := 0 <= z < u32_mod.

(** Result of the conversion [int(z)] of an [unsigned] value: values from
    2^31 on come out negative. *)
Definition to_int (z : Z) : Z := (z + 2 ^ 31) mod u32_mod - 2 ^ 31.

(** A [float] is kept as its binary32 encoding. *)
Definition float32 : Type := Z.
Definition float64 : Type := Z.

Definition f32_zero : float32 := 0.
Definition f32_one : float32 := 0x3F800000.

(** Value of a finite binary32 encoding as a dyadic number [(m, e)], standing
    for [m * 2^e]; [None] for infinities and NaN. *)
Definition f32_decode (b : float32) : option (Z * Z) :=
  let sign := if Z.testbit b 31 then -1 else 1 in
  let e := Z.land (Z.shiftr b 23) 0xFF in
  let f := Z.land b 0x7FFFFF in
  if e =? 0 then Some (sign * f, -149)
  else if e =? 255 then None
  else Some (sign * (2 ^ 23 + f), e - 150).

Definition vec2 : Type := float32 * float32.
Definition vec4 : Type := float32 * float32 * float32 * float32.
(** Column-major, as in the sources' math library. *)
Definition mat2 : Type := vec2 * vec2.
Definition mat4 : Type := vec4 * vec4 * vec4 * vec4.

Definition vec4_zw (v : vec4) : vec2 :=
  let '(_, _, z, w) := v in (z, w).

Definition mat4_col (m : mat4) (i : Z) : vec4 :=
  let '(c0, c1, c2, c3) := m in
  if i =? 0 then c0 else if i =? 1 then c1 else if i =? 2 then c2 else c3.

(** ** Vulkan enumerants used by the sources (values of vulkan_core.h) *)

Inductive VkFormat :=
| VK_FORMAT_UNDEFINED
| VK_FORMAT_R8G8_UNORM
| VK_FORMAT_R8G8_SNORM
| VK_FORMAT_R8G8B8A8_SRGB
| VK_FORMAT_A2B10G10R10_UNORM_PACK32
| VK_FORMAT_R16_SFLOAT
| VK_FORMAT_B10G11R11_UFLOAT_PACK32
| VK_FORMAT_OTHER (code : Z).

Inductive VkImageViewType :=
| VK_IMAGE_VIEW_TYPE_1D
| VK_IMAGE_VIEW_TYPE_2D
| VK_IMAGE_VIEW_TYPE_3D.

Definition VK_SHADER_STAGE_COMPUTE_BIT : Z := 0x20.
Definition VK_SUBGROUP_FEATURE_BASIC_BIT : Z := 0x1.
Definition VK_SUBGROUP_FEATURE_QUAD_BIT : Z := 0x80.
Definition VK_FORMAT_FEATURE_2_STORAGE_READ_WITHOUT_FORMAT_BIT_KHR : Z := 0x80000000.
Definition VK_FORMAT_FEATURE_2_STORAGE_WRITE_WITHOUT_FORMAT_BIT_KHR : Z := 0x100000000.
Definition VK_BUFFER_USAGE_STORAGE_BUFFER_BIT : Z := 0x20.
Definition VK_PIPELINE_STAGE_ALL_GRAPHICS_BIT : Z := 0x8000.

(** The flag word [flags] has the single-bit flag [bit] set. *)
Definition flag_set (flags bit : Z) : Prop := Z.land flags bit <> 0.

(** ** The device, as far as the sources query it *)

Record SubgroupProperties := {
  supportedStages : Z;
  supportedOperations : Z
}.

Record DeviceFeatures := {
  subgroup_properties : SubgroupProperties;
  (* enabled_features.shaderStorageImageArrayDynamicIndexing, a VkBool32 *)
  shaderStorageImageArrayDynamicIndexing : Z
}.

Record VkFormatProperties3KHR := {
  optimalTilingFeatures : Z
}.

Record ImageCreateInfo := {
  img_width : Z;
  img_height : Z;
  img_levels : Z
}.

(** An image is identified by the allocation it lives in. *)
Record Image := {
  image_id : nat;
  get_create_info : ImageCreateInfo
}.

Record ImageViewCreateInfo := {
  ivci_image : Image;
  ivci_format : VkFormat;
  ivci_base_level : Z;
  ivci_levels : Z;
  ivci_base_layer : Z;
  ivci_layers : Z;
  ivci_view_type : VkImageViewType
}.

Record ImageView := {
  view_create_info : ImageViewCreateInfo;
  get_view_width : Z;
  get_view_height : Z
}.

Definition get_image (v : ImageView) : Image := ivci_image (view_create_info v).

Record Buffer := { buffer_id : nat }.

Record Device := {
  get_device_features : DeviceFeatures;
  supports_subgroup_size_log2 : bool -> Z -> Z -> bool;
  (* get_gpu_properties().limits.maxComputeWorkGroupSize, a uint32_t[3] *)
  maxComputeWorkGroupSize : Z * Z * Z;
  get_format_properties : VkFormat -> VkFormatProperties3KHR;
  (* extent the driver gives a view of the described sub-resource *)
  view_extent : ImageViewCreateInfo -> Z * Z;
  (* every view made by [create_image_view], oldest first *)
  created_views : list ImageView;
  get_swapchain_view : ImageView;
  get_default_depth_stencil_format : VkFormat
}.

Definition create_image_view (dev : Device) (info : ImageViewCreateInfo)
  : Device * ImageView :=
  let v := {| view_create_info := info;
              get_view_width := fst (view_extent dev info);
              get_view_height := snd (view_extent dev info) |} in
  ({| get_device_features := get_device_features dev;
      supports_subgroup_size_log2 := supports_subgroup_size_log2 dev;
      maxComputeWorkGroupSize := maxComputeWorkGroupSize dev;
      get_format_properties := get_format_properties dev;
      view_extent := view_extent dev;
      created_views := created_views dev ++ [v];
      get_swapchain_view := get_swapchain_view dev;
      get_default_depth_stencil_format := get_default_depth_stencil_format dev |},
   v).

(** ** Command recording *)

Inductive StockSampler := NearestClamp | LinearClamp.

(** The push-constant block of the downsample shader.  [inv_resolution] is
    [1.0f / float(extent)]; the division is not evaluated, the field keeps the
    two extents whose reciprocals are pushed. *)
Record Registers := {
  base_image_resolution : Z * Z;
  inv_resolution : Z * Z;
  mips : Z;
  num_workgroups : Z
}.

Inductive Command :=
| set_program (path : string) (defines : list (string * Z))
| set_texture (set binding : Z) (view : ImageView) (sampler : StockSampler)
| set_storage_buffer (set binding : Z) (buffer : Buffer) (offset range : Z)
| set_storage_texture (set binding : Z) (view : ImageView)
| constant_data_vec4 (set binding : Z) (data : list vec4)
| constant_data_mat2 (set binding : Z) (data : mat2)
| push_constants (push : Registers)
| enable_subgroup_size_control (enable : bool)
| set_subgroup_size_log2 (full : bool) (lo hi : Z)
| dispatch (x y z : Z).

Definition CommandBuffer : Type := list Command.

(** ** The render graph, as the sources drive it

    The graph implementation is not part of the sources.  A graph is the
    sequence of calls it has received, plus the answers it gives to the
    three resource queries. *)

Inductive SizeClass := Absolute | SwapchainRelative | InputRelative.

Record AttachmentInfo := {
  size_class : SizeClass;
  format : VkFormat;
  size_relative_name : string;
  levels : Z
}.

(** A default-constructed [AttachmentInfo], restricted to the fields the
    sources assign. *)
Definition AttachmentInfo_default : AttachmentInfo :=
  {| size_class := SwapchainRelative; format := VK_FORMAT_UNDEFINED;
     size_relative_name := EmptyString; levels := 1 |}.

Record BufferInfo := {
  size : Z;
  usage : Z
}.

Record ResourceDimensions := {
  dim_format : VkFormat;
  width : Z;
  height : Z
}.

Inductive PassDomain :=
| RENDER_GRAPH_QUEUE_COMPUTE_BIT
| PipelineStages (mask : Z).

Inductive PassImplementation := gbuffer_impl | lighting_impl | ui_impl.

Inductive PassCall :=
| add_texture_input (name : string)
| add_storage_texture_output (name : string) (info : AttachmentInfo)
| add_storage_output (name : string) (info : BufferInfo)
| add_color_output (name : string) (info : AttachmentInfo) (input : string)
| set_depth_stencil_output (name : string) (info : AttachmentInfo)
| add_attachment_input (name : string)
| set_depth_stencil_input (name : string)
| set_build_render_pass
| set_implementation (impl : PassImplementation).

Inductive GraphCall :=
| reset
| set_backbuffer_dimensions (dim : ResourceDimensions)
| set_backbuffer_source (name : string)
| add_pass (name : string) (domain : PassDomain)
| on_pass (pass : string) (call : PassCall)
| setup_hdr_postprocess (input output : string)
| bake
| log
| setup_attachments (device : Device) (swapchain : ImageView)
| enqueue_render_passes (device : Device).

Record RenderGraph := {
  graph_calls : list GraphCall;
  get_resource_dimensions : string -> ResourceDimensions;
  get_physical_texture_resource : string -> ImageView;
  get_physical_buffer_resource : string -> Buffer
}.

Definition graph_call (c : GraphCall) (g : RenderGraph) : RenderGraph :=
  {| graph_calls := graph_calls g ++ [c];
     get_resource_dimensions := get_resource_dimensions g;
     get_physical_texture_resource := get_physical_texture_resource g;
     get_physical_buffer_resource := get_physical_buffer_resource g |}.

Record RenderParameters := {
  inv_projection : mat4
}.

Record RenderContext := {
  get_render_parameters : RenderParameters
}.

(** ** util: bit operations *)

Module Util.

(** Modelled from the spec: [Util::floor_log2] (its header is not part of the
    sources) is the "floor(log2(.))" of the level-count rule. *)
Definition floor_log2 (v : Z) : Z := Z.log2 v.

End Util.

(** ** spd.cpp: the single-pass downsample and the depth-hierarchy pass *)

Module SPD.

Definition supports_single_pass_downsample (device : Device) (fmt : VkFormat) : bool :=
  let features := get_device_features device in
  let supports_full_group := supports_subgroup_size_log2 device true 2 7 in
  let supports_compute :=
    negb (Z.land (supportedStages (subgroup_properties features))
                 VK_SHADER_STAGE_COMPUTE_BIT =? 0) in
  if fst (fst (maxComputeWorkGroupSize device)) <? 256 then false
  else if shaderStorageImageArrayDynamicIndexing features =? 0 then false
  else
    let props3 := get_format_properties device fmt in
    if Z.land (optimalTilingFeatures props3)
              VK_FORMAT_FEATURE_2_STORAGE_WRITE_WITHOUT_FORMAT_BIT_KHR =? 0
    then false
    else if Z.land (optimalTilingFeatures props3)
                   VK_FORMAT_FEATURE_2_STORAGE_READ_WITHOUT_FORMAT_BIT_KHR =? 0
    then false
    else
      let required :=
        Z.lor VK_SUBGROUP_FEATURE_BASIC_BIT VK_SUBGROUP_FEATURE_QUAD_BIT in
      let supports_quad_basic :=
        Z.land (supportedOperations (subgroup_properties features)) required
        =? required in
      supports_full_group && supports_compute && supports_quad_basic.

(** The two ways a collaborator can build a mip chain. *)
Inductive DownsamplePath := SinglePassDownsample | MultiPassDownsample.

(** Modelled from the spec: the collaborator that calls the capability query
    is not part of the sources; section 7 of the design has it fall back to
    the multi-pass equivalent when the accelerated path is unavailable. *)
Definition select_downsample_path (device : Device) (fmt : VkFormat)
  : DownsamplePath :=
  if supports_single_pass_downsample device fmt
  then SinglePassDownsample else MultiPassDownsample.

(** [SPDInfo] (spd.hpp), read off its uses.  [output_mips] is the array the
    pointer designates: [Some v] for a slot holding a view pointer, [None]
    for a slot that was never written; reading past the array or reading a
    [None] slot is undefined. *)
Record SPDInfo := {
  input : option ImageView;
  counter_buffer : option Buffer;
  counter_buffer_offset : Z;
  num_components : Z;
  output_mips : list (option ImageView);
  num_mips : Z;
  filter_mod : option (list vec4);
  z_transform : option mat2
}.

(** [SPDInfo info = {}] *)
Definition SPDInfo_zero : SPDInfo :=
  {| input := None; counter_buffer := None; counter_buffer_offset := 0;
     num_components := 0; output_mips := []; num_mips := 0;
     filter_mod := None; z_transform := None |}.

(** The index expression [std::min(i, info.num_mips - 1)], in [unsigned]. *)
Definition mip_index (num : Z) (i : Z) : Z := Z.min i (wrap32 (num - 1)).

Definition read_mip (info : SPDInfo) (idx : Z) : option ImageView :=
  mjoin (output_mips info !! Z.to_nat idx).

Definition bool_to_int (b : bool) : Z := if b then 1 else 0.

Definition is_set {A} (p : option A) : bool :=
  match p with Some _ => true | None => false end.

Section WithMaxSPDMips.

(** [MaxSPDMips] is declared in spd.hpp, which is not part of the sources. *)
Variable MaxSPDMips : Z.

(** [for (unsigned i = 0; i < MaxSPDMips; i++) cmd.set_storage_texture(...)],
    with [todo] iterations left. *)
Fixpoint bind_output_mips (todo : nat) (i : Z) (info : SPDInfo)
    (cmd : CommandBuffer) : option CommandBuffer :=
  match todo with
  | O => Some cmd
  | S todo' =>
      v ← read_mip info (mip_index (num_mips info) i);
      bind_output_mips todo' (i + 1) info
        (cmd ++ [set_storage_texture 0 (wrap32 (2 + i)) v])
  end.

Definition emit_single_pass_downsample (cmd : CommandBuffer) (info : SPDInfo)
  : option CommandBuffer :=
  let cmd := cmd ++
    [set_program "builtin://shaders/post/ffx-spd/spd.comp"
       [("SUBGROUP"%string, 1); ("SINGLE_INPUT_TAP"%string, 1);
        ("COMPONENTS"%string, to_int (num_components info));
        ("FILTER_MOD"%string, bool_to_int (is_set (filter_mod info)));
        ("Z_TRANSFORM"%string, bool_to_int (is_set (z_transform info)))]] in
  let stock := if is_set (z_transform info) then NearestClamp else LinearClamp in
  inp ← input info;
  let cmd := cmd ++ [set_texture 0 0 inp stock] in
  counter ← counter_buffer info;
  let cmd := cmd ++
    [set_storage_buffer 0 1 counter (counter_buffer_offset info) 4] in
  cmd ← bind_output_mips (Z.to_nat MaxSPDMips) 0 info cmd;
  cmd ← match filter_mod info with
        | Some data =>
            if num_mips info <=? Z.of_nat (length data)
            then Some (cmd ++ [constant_data_vec4 1 0
                                 (take (Z.to_nat (num_mips info)) data)])
            else None
        | None => Some cmd
        end;
  let cmd := match z_transform info with
             | Some m => cmd ++ [constant_data_mat2 1 1 m]
             | None => cmd
             end in
  mip0 ← read_mip info 0;
  let res := (get_view_width mip0, get_view_height mip0) in
  let wg_x := wrap32 (fst res + 31) / 32 in
  let wg_y := wrap32 (snd res + 31) / 32 in
  let push := {| base_image_resolution := res;
                 inv_resolution := (get_view_width inp, get_view_height inp);
                 mips := num_mips info;
                 num_workgroups := wrap32 (wg_x * wg_y) |} in
  Some (cmd ++ [push_constants push;
                enable_subgroup_size_control true;
                set_subgroup_size_log2 true 2 7;
                dispatch wg_x wg_y 1;
                enable_subgroup_size_control false]).

(** The state the build callback captures.  The three resource references
    are kept as the names they were declared under. *)
Record SPDPassState := {
  otex : string;
  itex : string;
  counter : string;
  views : list ImageView;
  state_output_mips : list (option ImageView);
  info : SPDInfo
}.

Definition setup_depth_hierarchy_pass (graph : RenderGraph)
    (context : RenderContext) (input_name output_name : string)
  : RenderGraph * SPDPassState :=
  let att := {| size_class := InputRelative; format := VK_FORMAT_R16_SFLOAT;
                size_relative_name := input_name;
                levels := levels AttachmentInfo_default |} in
  let graph := graph_call (add_pass output_name RENDER_GRAPH_QUEUE_COMPUTE_BIT) graph in
  let graph := graph_call (on_pass output_name (add_texture_input input_name)) graph in
  let dim := get_resource_dimensions graph input_name in
  let att := {| size_class := size_class att; format := format att;
                size_relative_name := size_relative_name att;
                levels := wrap32 (Util.floor_log2 (Z.min (width dim) (height dim)) + 1) |} in
  let graph := graph_call (on_pass output_name
                             (add_storage_texture_output output_name att)) graph in
  let storage_info := {| size := 4; usage := VK_BUFFER_USAGE_STORAGE_BUFFER_BIT |} in
  let graph := graph_call (on_pass output_name
                             (add_storage_output (output_name ++ "-counter") storage_info))
                          graph in
  let graph := graph_call (on_pass output_name set_build_render_pass) graph in
  (graph,
   {| otex := output_name; itex := input_name;
      counter := (output_name ++ "-counter")%string;
      views := [];
      state_output_mips := replicate (Z.to_nat MaxSPDMips) None;
      info := SPDInfo_zero |}).

(** The [ImageViewCreateInfo] the callback fills in, with [base_level = i]. *)
Definition mip_view_info (image : Image) (i : Z) : ImageViewCreateInfo :=
  {| ivci_image := image; ivci_format := VK_FORMAT_R16_SFLOAT;
     ivci_base_level := i; ivci_levels := 1;
     ivci_base_layer := 0; ivci_layers := 1;
     ivci_view_type := VK_IMAGE_VIEW_TYPE_2D |}.

(** The view [dev] makes of mip [i]. *)
Definition mip_view (dev : Device) (image : Image) (i : Z) : ImageView :=
  snd (create_image_view dev (mip_view_info image i)).

(** The body of [for (unsigned i = 0; i < h->info.num_mips; i++)], with
    [todo] iterations left.  A write past the end of the [MaxSPDMips] slots of
    [output_mips] is undefined. *)
Fixpoint create_mip_views (todo : nat) (i : Z) (image : Image) (dev : Device)
    (vs : list ImageView) (slots : list (option ImageView))
  : option (Device * list ImageView * list (option ImageView)) :=
  match todo with
  | O => Some (dev, vs, slots)
  | S todo' =>
      let '(dev, v) := create_image_view dev (mip_view_info image i) in
      let vs := vs ++ [v] in
      if bool_decide (Z.to_nat i < length slots)%nat
      then create_mip_views todo' (i + 1) image dev vs (<[Z.to_nat i := Some v]> slots)
      else None
  end.

Definition with_info (h : SPDPassState) (i : SPDInfo) : SPDPassState :=
  {| otex := otex h; itex := itex h; counter := counter h; views := views h;
     state_output_mips := state_output_mips h; info := i |}.

(** The state holds the [n] per-mip views that [dev] makes of [image], and
    its [info] designates them. *)
Definition views_cached (dev : Device) (image : Image) (n : Z)
    (h : SPDPassState) : Prop :=
  views h = mip_view dev image <$> seqZ 0 n
  /\ num_mips (info h) = n
  /\ filter_mod (info h) = None
  /\ forall k, 0 <= k < n -> read_mip (info h) k = Some (mip_view dev image k).

(** The callback handed to [set_build_render_pass].  [dev] is
    [cmd.get_device()], which the callback mutates by creating views. *)
Definition build_render_pass (graph : RenderGraph) (context : RenderContext)
    (h : SPDPassState) (dev : Device) (cmd : CommandBuffer)
  : option (SPDPassState * Device * CommandBuffer) :=
  '(h, dev) ←
    match views h with
    | [] =>
        let otex_view := get_physical_texture_resource graph (otex h) in
        let n := img_levels (get_create_info (get_image otex_view)) in
        (* VK_ASSERT(h->info.num_mips <= MaxSPDMips) *)
        if n <=? MaxSPDMips then
          '(dev, vs, slots) ←
            create_mip_views (Z.to_nat n) 0 (get_image otex_view) dev
                             (views h) (state_output_mips h);
          (* the slots are written only above, so the array that
             [info.output_mips] points to always has these contents *)
          Some ({| otex := otex h; itex := itex h; counter := counter h;
                   views := vs; state_output_mips := slots;
                   info := {| input := input (info h);
                              counter_buffer := counter_buffer (info h);
                              counter_buffer_offset := counter_buffer_offset (info h);
                              num_components := num_components (info h);
                              output_mips := slots;
                              num_mips := n;
                              filter_mod := filter_mod (info h);
                              z_transform := z_transform (info h) |} |}, dev)
        else None
    | _ :: _ => Some (h, dev)
    end;
  let params := get_render_parameters context in
  let inv_zw : mat2 := (vec4_zw (mat4_col (inv_projection params) 2),
                        vec4_zw (mat4_col (inv_projection params) 3)) in
  let i := {| input := Some (get_physical_texture_resource graph (itex h));
              counter_buffer := Some (get_physical_buffer_resource graph (counter h));
              counter_buffer_offset := counter_buffer_offset (info h);
              num_components := 1;
              output_mips := output_mips (info h);
              num_mips := num_mips (info h);
              filter_mod := filter_mod (info h);
              z_transform := Some inv_zw |} in
  let h := with_info h i in
  cmd ← emit_single_pass_downsample cmd (info h);
  Some (h, dev, cmd).

(** The executor calls the callback once per frame, each time with that
    frame's command buffer; the captured state and the device persist. *)
Fixpoint run_frames (graph : RenderGraph) (context : RenderContext)
    (frames : list CommandBuffer) (h : SPDPassState) (dev : Device)
  : option (SPDPassState * Device) :=
  match frames with
  | [] => Some (h, dev)
  | cmd :: frames' =>
      '(h, dev, _) ← build_render_pass graph context h dev cmd;
      run_frames graph context frames' h dev
  end.

End WithMaxSPDMips.

End SPD.

(** ** application.cpp: the scene viewer *)

Module SceneViewer.

(** [VkClearColorValue] is a union of [float[4]], [int32_t[4]] and
    [uint32_t[4]]: four 32-bit words. *)
Record VkClearColorValue := {
  clear_words : Z * Z * Z * Z
}.

Record VkClearDepthStencilValue := {
  depth : float32;
  stencil : Z
}.

(** Objects that callers hand in by pointer live in a store; a pointer is an
    address of that store, or null. *)
Definition pointer : Type := option nat.

(** [memset] of the whole pointee with zero bytes. *)
Definition memset_zero (_ : VkClearColorValue) : VkClearColorValue :=
  {| clear_words := (0, 0, 0, 0) |}.

Definition get_clear_color (index : Z) (value : pointer)
    (mem : gmap nat VkClearColorValue) : bool * gmap nat VkClearColorValue :=
  let mem := match value with
             | Some p => alter memset_zero p mem
             | None => mem
             end in
  (true, mem).

Definition set_stencil (s : Z) (v : VkClearDepthStencilValue) :=
  {| depth := depth v; stencil := s |}.

Definition set_depth (d : float32) (v : VkClearDepthStencilValue) :=
  {| depth := d; stencil := stencil v |}.

Definition get_clear_depth_stencil (value : pointer)
    (mem : gmap nat VkClearDepthStencilValue)
  : bool * gmap nat VkClearDepthStencilValue :=
  let mem := match value with
             | Some p =>
                 let mem := alter (set_stencil 0) p mem in
                 alter (set_depth f32_one) p mem
             | None => mem
             end in
  (true, mem).

(** Calls on the collaborators other than the graph. *)
Inductive Call :=
| animation_system_animate (elapsed_time : float64)
| context_set_camera
| visible_clear
| window_set_background_color (color : vec4)
| window_set_margin (margin : Z)
| window_set_floating_position (x y : Z)
| window_set_title (title : string)
| scene_update_cached_transforms
| scene_refresh_per_frame
| scene_gather_visible_opaque_renderables
| scene_gather_background_renderables
| renderer_begin
| renderer_push_renderables
| filesystem_poll_notifications
| wsi_begin_frame
| wsi_end_frame.

Record SwapchainParameterEvent := {
  get_device : Device;
  get_width : Z;
  get_height : Z;
  get_format : VkFormat
}.

Record SceneViewerApplication := {
  graph : RenderGraph;
  (* get_wsi().get_device() *)
  wsi_device : Device;
  (* calls made on the other collaborators, oldest first *)
  calls : list Call
}.

Definition with_graph (app : SceneViewerApplication) (g : RenderGraph) :=
  {| graph := g; wsi_device := wsi_device app; calls := calls app |}.

Definition with_call (c : Call) (app : SceneViewerApplication) :=
  {| graph := graph app; wsi_device := wsi_device app; calls := calls app ++ [c] |}.

(** The names a sequence of graph calls sets the backbuffer source to. *)
Definition backbuffer_sources (cs : list GraphCall) : list string :=
  omap (fun c => match c with
                 | set_backbuffer_source name => Some name
                 | _ => None
                 end) cs.

(** Calls that declare a pass or something on a pass. *)
Definition is_declaration (c : GraphCall) : bool :=
  match c with
  | add_pass _ _ | on_pass _ _ | setup_hdr_postprocess _ _ => true
  | _ => false
  end.

(** The two graph calls of one frame on [device]. *)
Definition frame_graph_calls (device : Device) : list GraphCall :=
  [ setup_attachments device (get_swapchain_view device);
    enqueue_render_passes device ].

(** The process environment. *)
Definition getenv (env : gmap string string) (name : string) : option string :=
  env !! name.

Definition with_format (f : VkFormat) : AttachmentInfo :=
  {| size_class := size_class AttachmentInfo_default; format := f;
     size_relative_name := size_relative_name AttachmentInfo_default;
     levels := levels AttachmentInfo_default |}.

(** The pass declarations of [on_swapchain_changed], in program order. *)
Definition declare_passes (swap : SwapchainParameterEvent) : list GraphCall :=
  let backbuffer := AttachmentInfo_default in
  let emissive := with_format VK_FORMAT_B10G11R11_UFLOAT_PACK32 in
  let albedo := with_format VK_FORMAT_R8G8B8A8_SRGB in
  let normal := with_format VK_FORMAT_A2B10G10R10_UNORM_PACK32 in
  let pbr := with_format VK_FORMAT_R8G8_UNORM in
  let depth := with_format (get_default_depth_stencil_format (get_device swap)) in
  [ add_pass "gbuffer" (PipelineStages VK_PIPELINE_STAGE_ALL_GRAPHICS_BIT);
    on_pass "gbuffer" (add_color_output "emissive" emissive EmptyString);
    on_pass "gbuffer" (add_color_output "albedo" albedo EmptyString);
    on_pass "gbuffer" (add_color_output "normal" normal EmptyString);
    on_pass "gbuffer" (add_color_output "pbr" pbr EmptyString);
    on_pass "gbuffer" (set_depth_stencil_output "depth" depth);
    on_pass "gbuffer" (set_implementation gbuffer_impl);
    add_pass "lighting" (PipelineStages VK_PIPELINE_STAGE_ALL_GRAPHICS_BIT);
    on_pass "lighting" (add_color_output "HDR" emissive "emissive");
    on_pass "lighting" (add_attachment_input "albedo");
    on_pass "lighting" (add_attachment_input "normal");
    on_pass "lighting" (add_attachment_input "pbr");
    on_pass "lighting" (add_attachment_input "depth");
    on_pass "lighting" (set_depth_stencil_input "depth");
    on_pass "lighting" (set_implementation lighting_impl);
    setup_hdr_postprocess "HDR" "tonemapped";
    add_pass "ui" (PipelineStages VK_PIPELINE_STAGE_ALL_GRAPHICS_BIT);
    on_pass "ui" (add_color_output "backbuffer" backbuffer "tonemapped");
    on_pass "ui" (set_implementation ui_impl) ].

Definition on_swapchain_changed (env : gmap string string)
    (app : SceneViewerApplication) (swap : SwapchainParameterEvent)
  : SceneViewerApplication :=
  let g := graph_call reset (graph app) in
  let dim := {| dim_format := get_format swap;
                width := get_width swap; height := get_height swap |} in
  let g := graph_call (set_backbuffer_dimensions dim) g in
  let backbuffer_source := getenv env "GRANITE_SURFACE" in
  let g := graph_call
             (set_backbuffer_source
                (match backbuffer_source with
                 | Some name => name
                 | None => "backbuffer"%string
                 end)) g in
  let g := foldl (fun g c => graph_call c g) g (declare_passes swap) in
  let g := graph_call bake g in
  let g := graph_call log g in
  with_graph app g.

Definition on_swapchain_destroyed (app : SceneViewerApplication)
  : SceneViewerApplication := app.

(** [vec4(1.0f)], [ivec2(40)]: the scalar fills every component. *)
Definition vec4_splat (x : float32) : vec4 := (x, x, x, x).

Definition render_frame (app : SceneViewerApplication)
    (frame_time elapsed_time : float64) : SceneViewerApplication :=
  let device := wsi_device app in
  let app := with_call (animation_system_animate elapsed_time) app in
  let app := with_call context_set_camera app in
  let app := with_call visible_clear app in
  let app := with_call (window_set_background_color (vec4_splat f32_one)) app in
  let app := with_call (window_set_margin 5) app in
  let app := with_call (window_set_floating_position 40 40) app in
  let app := with_call (window_set_title "My Window") app in
  let app := with_call scene_update_cached_transforms app in
  let app := with_call scene_refresh_per_frame app in
  let app := with_call scene_gather_visible_opaque_renderables app in
  let app := with_call scene_gather_background_renderables app in
  let app := with_call renderer_begin app in
  let app := with_call renderer_push_renderables app in
  let app := with_graph app
               (graph_call (setup_attachments device (get_swapchain_view device))
                           (graph app)) in
  with_graph app (graph_call (enqueue_render_passes device) (graph app)).

(** [Application::run]: one element of [frames] per iteration in which the
    platform reported itself alive, carrying the frame timer's two readings;
    the loop ends, with status 0, when the list does. *)
Fixpoint run_loop (frames : list (float64 * float64))
    (app : SceneViewerApplication) : SceneViewerApplication :=
  match frames with
  | [] => app
  | (frame_time, elapsed) :: frames' =>
      let app := with_call filesystem_poll_notifications app in
      let app := with_call wsi_begin_frame app in
      let app := render_frame app frame_time elapsed in
      let app := with_call wsi_end_frame app in
      run_loop frames' app
  end.

Definition run (frames : list (float64 * float64))
    (app : SceneViewerApplication) : SceneViewerApplication * Z :=
  (run_loop frames app, 0).

End SceneViewer.

(** ** util/variant.hpp *)

Module Variant.

Section Holder.

(** The C++ types a holder can be instantiated at, and their values. *)
Context {ty : Type} `{EqDecision ty} (value_of : ty -> Type).

(** [HolderValue<U>], seen through the [Holder] base pointer. *)
Record Holder := HolderValue {
  holder_type : ty;
  holder_value : value_of holder_type
}.

(** [std::unique_ptr<Holder> value] *)
Record Variant := {
  value : option Holder
}.

(** [Variant() = default] *)
Definition Variant_default : Variant := {| value := None |}.

Definition set (T : ty) (t : value_of T) (v : Variant) : Variant :=
  {| value := Some (HolderValue T t) |}.

(** [explicit Variant(T &&t)] *)
Definition Variant_of (T : ty) (t : value_of T) : Variant :=
  set T t Variant_default.

(** [static_cast<HolderValue<T> *>(value.get())->value].  The cast is
    unchecked: it is defined when the holder is a [HolderValue<T>], and the
    access is defined when the pointer is not null. *)
Definition get (T : ty) (v : Variant) : option (value_of T) :=
  match value v with
  | None => None
  | Some h =>
      match decide (holder_type h = T) with
      | left e => Some (eq_rect (holder_type h) value_of (holder_value h) T e)
      | right _ => None
      end
  end.

End Holder.

End Variant.

(** ** The dependency builder and the scheduler behind [bake()] *)

Module Bake.

(** Modelled from the spec: [RenderGraph::bake], the pass registry and the
    resource registry are not part of the sources.  A pass (section 3) has a
    name, the resources it reads and writes, and its recording logic: a
    callback, an implementation object, or neither. *)
Record LogicalPass := {
  pass_name : string;
  reads : list string;
  writes : list string;
  has_callback : bool;
  has_implementation : bool
}.

(** Modelled from the spec: what a graph holds between [reset()] and
    [bake()].  The passes, in declaration order; the resource names, in the
    order of their first reference (section 3: a resource is created on first
    reference by any pass); for each input-relative resource the resource its
    size is relative to; the requirements declared for texture outputs; and,
    for each color output with an aliasing input, the input and the output,
    which share their storage (section 4.2). *)
Record Declared := {
  passes : list LogicalPass;
  resources : list string;
  relative_sizes : list (string * string);
  requirements : list (string * AttachmentInfo);
  forced_aliases : list (string * string)
}.

Definition nothing_declared : Declared :=
  {| passes := []; resources := []; relative_sizes := [];
     requirements := []; forced_aliases := [] |}.

Definition add_read (r : string) (p : LogicalPass) : LogicalPass :=
  {| pass_name := pass_name p; reads := reads p ++ [r]; writes := writes p;
     has_callback := has_callback p; has_implementation := has_implementation p |}.

Definition add_write (r : string) (p : LogicalPass) : LogicalPass :=
  {| pass_name := pass_name p; reads := reads p; writes := writes p ++ [r];
     has_callback := has_callback p; has_implementation := has_implementation p |}.

Definition with_callback (p : LogicalPass) : LogicalPass :=
  {| pass_name := pass_name p; reads := reads p; writes := writes p;
     has_callback := true; has_implementation := has_implementation p |}.

Definition with_implementation (p : LogicalPass) : LogicalPass :=
  {| pass_name := pass_name p; reads := reads p; writes := writes p;
     has_callback := has_callback p; has_implementation := true |}.

Definition has_pass (name : string) (ps : list LogicalPass) : bool :=
  existsb (fun p => bool_decide (pass_name p = name)) ps.

(** The pass of that name, changed by [f]. *)
Fixpoint on_named (name : string) (f : LogicalPass -> LogicalPass)
    (ps : list LogicalPass) : list LogicalPass :=
  match ps with
  | [] => []
  | p :: rest =>
      if bool_decide (pass_name p = name) then f p :: rest
      else p :: on_named name f rest
  end.

Definition with_passes (g : Declared) (ps : list LogicalPass) : Declared :=
  {| passes := ps; resources := resources g; relative_sizes := relative_sizes g;
     requirements := requirements g; forced_aliases := forced_aliases g |}.

(** Modelled from the spec: a declaration auto-declares the resource it
    names if the registry has not seen it (section 4.2). *)
Definition register (r : string) (g : Declared) : Declared :=
  {| passes := passes g;
     resources := if bool_decide (r ∈ resources g) then resources g
                  else resources g ++ [r];
     relative_sizes := relative_sizes g;
     requirements := requirements g; forced_aliases := forced_aliases g |}.

Definition read (name r : string) (g : Declared) : Declared :=
  let g := register r g in
  with_passes g (on_named name (add_read r) (passes g)).

Definition write (name r : string) (g : Declared) : Declared :=
  let g := register r g in
  with_passes g (on_named name (add_write r) (passes g)).

(** The size policy and requirements of a texture output. *)
Definition sized (r : string) (att : AttachmentInfo) (g : Declared) : Declared :=
  {| passes := passes g; resources := resources g;
     relative_sizes :=
       relative_sizes g
       ++ match size_class att with
          | InputRelative => [(r, size_relative_name att)]
          | _ => []
          end;
     requirements := requirements g ++ [(r, att)];
     forced_aliases := forced_aliases g |}.

Definition aliased (input output : string) (g : Declared) : Declared :=
  {| passes := passes g; resources := resources g;
     relative_sizes := relative_sizes g; requirements := requirements g;
     forced_aliases := forced_aliases g ++ [(input, output)] |}.

(** Modelled from the spec: the read or write edge each declaration
    registers on the pass named [name] (section 4.2).  A color output with an
    aliasing input is read-modify-write: it reads the input and writes the
    output. *)
Definition declare (name : string) (c : PassCall) (g : Declared) : Declared :=
  match c with
  | add_texture_input r => read name r g
  | add_attachment_input r => read name r g
  | set_depth_stencil_input r => read name r g
  | add_storage_texture_output r att => sized r att (write name r g)
  | set_depth_stencil_output r att => sized r att (write name r g)
  | add_storage_output r _ => write name r g
  | add_color_output r att input =>
      if bool_decide (input = EmptyString) then sized r att (write name r g)
      else aliased input r (sized r att (write name r (read name input g)))
  | set_build_render_pass => with_passes g (on_named name with_callback (passes g))
  | set_implementation _ =>
      with_passes g (on_named name with_implementation (passes g))
  end.

(** Modelled from the spec: what a graph holds after a sequence of calls.
    A pass is identified by its name; [reset] destroys passes and resources;
    what an absent collaborator declares is not seen. *)
Definition declared (calls : list GraphCall) : Declared :=
  foldl (fun g c =>
           match c with
           | reset => nothing_declared
           | add_pass name _ =>
               if has_pass name (passes g) then g
               else with_passes g
                      (passes g ++ [{| pass_name := name; reads := []; writes := [];
                                       has_callback := false;
                                       has_implementation := false |}])
           | on_pass name pc =>
               if has_pass name (passes g) then declare name pc g else g
           | _ => g
           end) nothing_declared calls.

Definition writes_resource (ps : list LogicalPass) (r : string) (a : nat) : bool :=
  match ps !! a with
  | Some p => bool_decide (r ∈ writes p)
  | None => false
  end.

(** The pass that last wrote [r] before the pass declared [b]-th, in
    declaration order. *)
Definition last_writer_before (ps : list LogicalPass) (r : string) (b : nat)
  : option nat :=
  last (List.filter (writes_resource ps r) (seq 0 b)).

(** Modelled from the spec: the dependency builder (section 4.3).
    [depends ps a b]: there is an edge from the pass declared [a]-th to the
    pass declared [b]-th.  "All passes that read [a resource] depend on the
    (at most one) pass that last wrote it before the read in declaration
    order; all passes that write the same resource form a total order
    matching declaration order." *)
Definition depends (ps : list LogicalPass) (a b : nat) : bool :=
  match ps !! a, ps !! b with
  | Some pa, Some pb =>
      existsb (fun r => bool_decide (last_writer_before ps r b = Some a)) (reads pb)
      || ((a <? b)%nat
          && existsb (fun r => bool_decide (r ∈ writes pb)) (writes pa))
  | _, _ => false
  end.

(** Modelled from the spec: "exactly one [of callback and implementation]
    must be set before bake()" (section 4.2). *)
Definition recording_ok (p : LogicalPass) : bool :=
  xorb (has_callback p) (has_implementation p).

Definition position (r : string) (rs : list string) : option nat :=
  fst <$> list_find (fun x => x = r) rs.

(** Modelled from the spec: "a resource cannot be relative to one declared
    later in the same bake pass list" (section 4.1): the reference is in the
    registry, before the resource. *)
Definition declared_earlier (rs : list string) (reference r : string) : bool :=
  match position reference rs, position r rs with
  | Some i, Some j => (i <? j)%nat
  | _, _ => false
  end.

Definition sizes_resolve (g : Declared) : bool :=
  forallb (fun rs => declared_earlier (resources g) (snd rs) (fst rs))
          (relative_sizes g).

Definition requirements_of (r : string) (g : Declared) : list AttachmentInfo :=
  omap (fun ra => if bool_decide (fst ra = r) then Some (snd ra) else None)
       (requirements g).

(** An execution plan, as far as its order goes: declaration indices in
    execution order. *)
Definition ExecutionPlan : Type := list nat.

(** Modelled from the spec: the construction-time errors of section 7, and
    the violation of section 4.2's rule on recording logic, for which the
    spec has no name.  Section 7's capability error is raised for what a
    collaborator would declare, from device data that declarations do not
    carry; it is not a verdict on the declared graph. *)
Inductive BakeError :=
| DependencyOrderError
| GraphCycleError
| ResourceConflictError
| RecordingLogicError.

Inductive BakeResult :=
| Baked (plan : ExecutionPlan)
| Failed (error : BakeError).

Section Scheduler.

Variable dep : nat -> nat -> bool.
Variable n : nat.

(** A pass can run next when it has not run and everything it depends on
    has. *)
Definition is_ready (scheduled : list nat) (p : nat) : bool :=
  negb (bool_decide (p ∈ scheduled))
  && forallb (fun q => implb (dep q p) (bool_decide (q ∈ scheduled))) (seq 0 n).

(** Modelled from the spec: the scheduler takes, [todo] times, the first pass
    in declaration order that can run next. *)
Fixpoint schedule (todo : nat) (scheduled : list nat) : option ExecutionPlan :=
  match todo with
  | O => Some scheduled
  | S todo' =>
      match find (is_ready scheduled) (seq 0 n) with
      | Some p => schedule todo' (scheduled ++ [p])
      | None => None
      end
  end.

End Scheduler.

Section Allocator.

(** When two sets of requirements can be met by one allocation.  The spec
    leaves the relation open ("an allocation must satisfy the union, or the
    larger/superset, of both resources' requirements", section 4.5). *)
Variable compatible : AttachmentInfo -> AttachmentInfo -> bool.

(** Modelled from the spec: the requirements of the two ends of every forced
    alias are compatible (sections 4.2, 4.5, 7). *)
Definition aliases_compatible (g : Declared) : bool :=
  forallb (fun io =>
             forallb (fun ai =>
                        forallb (compatible ai) (requirements_of (snd io) g))
                     (requirements_of (fst io) g))
          (forced_aliases g).

(** Modelled from the spec: [bake()] (sections 4.3 to 4.6 and 7).  It aborts
    on a pass without exactly one recording logic, on a size that is relative
    to a resource declared later, on a cycle, and on a forced alias with
    incompatible requirements; otherwise its plan is the scheduler's order. *)
Definition bake (g : Declared) : BakeResult :=
  if negb (forallb recording_ok (passes g)) then Failed RecordingLogicError
  else if negb (sizes_resolve g) then Failed DependencyOrderError
  else
    match schedule (depends (passes g)) (length (passes g))
                   (length (passes g)) [] with
    | None => Failed GraphCycleError
    | Some plan =>
        if negb (aliases_compatible g) then Failed ResourceConflictError
        else Baked plan
    end.

End Allocator.


(** [p] is the pass the tie-break rule picks after [scheduled]: it can run
    next, and no pass declared before it can. *)
Definition picked (dep : nat -> nat -> bool) (n : nat)
    (scheduled : list nat) (p : nat) : Prop :=
  (p < n)%nat /\ is_ready dep n scheduled p = true
  /\ forall q, (q < p)%nat -> is_ready dep n scheduled q = false.

(** Every pass of a plan was picked by the tie-break rule after the passes
    before it. *)
Definition all_picked (dep : nat -> nat -> bool) (n : nat)
    (plan : ExecutionPlan) : Prop :=
  forall pre p post, plan = pre ++ p :: post -> picked dep n pre p.

End Bake.

(** ** Concrete inputs *)

Module Example.

Definition depth_image : Image :=
  {| image_id := 1;
     get_create_info := {| img_width := 513; img_height := 300; img_levels := 9 |} |}.

Definition whole_view (img : Image) (fmt : VkFormat) : ImageView :=
  {| view_create_info :=
       {| ivci_image := img; ivci_format := fmt; ivci_base_level := 0;
          ivci_levels := img_levels (get_create_info img); ivci_base_layer := 0;
          ivci_layers := 1; ivci_view_type := VK_IMAGE_VIEW_TYPE_2D |};
     get_view_width := img_width (get_create_info img);
     get_view_height := img_height (get_create_info img) |}.

(** A device that offers everything the single-pass downsample asks for. *)
Definition device : Device :=
  {| get_device_features :=
       {| subgroup_properties :=
            {| supportedStages := 0x7F; supportedOperations := 0xFF |};
          shaderStorageImageArrayDynamicIndexing := 1 |};
     supports_subgroup_size_log2 := fun _ lo hi => (2 <=? lo) && (hi <=? 7);
     maxComputeWorkGroupSize := (1024, 1024, 64);
     get_format_properties :=
       fun _ => {| optimalTilingFeatures := 0x180000000 |};
     view_extent :=
       fun info =>
         (Z.max 1 (Z.shiftr (img_width (get_create_info (ivci_image info)))
                            (ivci_base_level info)),
          Z.max 1 (Z.shiftr (img_height (get_create_info (ivci_image info)))
                            (ivci_base_level info)));
     created_views := [];
     get_swapchain_view := whole_view depth_image (VK_FORMAT_OTHER 44);
     get_default_depth_stencil_format := VK_FORMAT_OTHER 126 |}.

(** A graph whose resources are all backed by the 513x300 image. *)
Definition graph : RenderGraph :=
  {| graph_calls := [];
     get_resource_dimensions :=
       fun _ => {| dim_format := VK_FORMAT_OTHER 126; width := 513; height := 300 |};
     get_physical_texture_resource := fun _ => whole_view depth_image VK_FORMAT_R16_SFLOAT;
     get_physical_buffer_resource := fun _ => {| buffer_id := 7 |} |}.

Definition context : RenderContext :=
  {| get_render_parameters :=
       {| inv_projection :=
            ((f32_one, 0, 0, 0), (0, f32_one, 0, 0),
             (0, 0, 0, f32_one), (0, 0, f32_one, 0)) |} |}.

Definition MaxSPDMips : Z := 12.

(** A two-level downsample of the example image. *)
Definition spd_info : SPD.SPDInfo :=
  {| SPD.input := Some (whole_view depth_image VK_FORMAT_R16_SFLOAT);
     SPD.counter_buffer := Some {| buffer_id := 7 |};
     SPD.counter_buffer_offset := 0;
     SPD.num_components := 1;
     SPD.output_mips := [Some (SPD.mip_view device depth_image 0);
                         Some (SPD.mip_view device depth_image 1)];
     SPD.num_mips := 2;
     SPD.filter_mod := None;
     SPD.z_transform := None |}.

(** Two C++ types a variant is used at. *)
Inductive cpp_type := cpp_int | cpp_string.

#[global] Instance cpp_type_eq_dec : EqDecision cpp_type.
Proof. solve_decision. Defined.

Definition cpp_value (T : cpp_type) : Type :=
  match T with
  | cpp_int => Z
  | cpp_string => string
  end.

#[global] Instance VkFormat_eq_dec : EqDecision VkFormat.
Proof. solve_decision. Defined.


Definition swap : SceneViewer.SwapchainParameterEvent :=
  {| SceneViewer.get_device := device;
     SceneViewer.get_width := 1280; SceneViewer.get_height := 720;
     SceneViewer.get_format := VK_FORMAT_R8G8B8A8_SRGB |}.



(** Another graph, whose resources are backed by a larger image. *)
Definition large_image : Image :=
  {| image_id := 2;
     get_create_info := {| img_width := 1024; img_height := 1024; img_levels := 11 |} |}.

Definition other_graph : RenderGraph :=
  {| graph_calls := [];
     get_resource_dimensions :=
       fun _ => {| dim_format := VK_FORMAT_OTHER 126; width := 1024; height := 1024 |};
     get_physical_texture_resource := fun _ => whole_view large_image VK_FORMAT_R16_SFLOAT;
     get_physical_buffer_resource := fun _ => {| buffer_id := 8 |} |}.

End Example.

(** ** Readers of what was recorded, and drivers *)

Module Recorded.

(** The storage-texture bindings of a command buffer, as (set, binding), in
    recording order. *)
Definition storage_texture_slots (cmd : CommandBuffer) : list (Z * Z) :=
  omap (fun c => match c with
                 | set_storage_texture s b _ => Some (s, b)
                 | _ => None
                 end) cmd.

(** The storage-texture outputs a sequence of graph calls declares, with
    their level counts. *)
Definition storage_texture_levels (cs : list GraphCall) : list (string * Z) :=
  omap (fun c => match c with
                 | on_pass _ (add_storage_texture_output name att) =>
                     Some (name, levels att)
                 | _ => None
                 end) cs.

(** The bindings the slot loop of the downsample records for slots
    [i], ..., [i + todo - 1]; [None] when one of the reads is undefined. *)
Definition slot_bindings (info : SPD.SPDInfo) (i : Z) (todo : nat)
  : option (list Command) :=
  mapM (fun k =>
          v ← SPD.read_mip info (SPD.mip_index (SPD.num_mips info) k);
          Some (set_storage_texture 0 (wrap32 (2 + k)) v))
       (seqZ i (Z.of_nat todo)).

(** The three commands the downsample records before the slot loop. *)
Definition head_commands (info : SPD.SPDInfo) (inp : ImageView) (cb : Buffer)
  : list Command :=
  [ set_program "builtin://shaders/post/ffx-spd/spd.comp"
      [("SUBGROUP"%string, 1); ("SINGLE_INPUT_TAP"%string, 1);
       ("COMPONENTS"%string, to_int (SPD.num_components info));
       ("FILTER_MOD"%string, SPD.bool_to_int (SPD.is_set (SPD.filter_mod info)));
       ("Z_TRANSFORM"%string, SPD.bool_to_int (SPD.is_set (SPD.z_transform info)))];
    set_texture 0 0 inp
      (if SPD.is_set (SPD.z_transform info) then NearestClamp else LinearClamp);
    set_storage_buffer 0 1 cb (SPD.counter_buffer_offset info) 4 ].

(** The constant data the downsample uploads after the slot loop. *)
Definition upload_commands (info : SPD.SPDInfo) : list Command :=
  match SPD.filter_mod info with
  | Some data =>
      [constant_data_vec4 1 0 (take (Z.to_nat (SPD.num_mips info)) data)]
  | None => []
  end
  ++ match SPD.z_transform info with
     | Some m => [constant_data_mat2 1 1 m]
     | None => []
     end.

(** The five commands that close the downsample, for base mip [mip0]. *)
Definition dispatch_commands (info : SPD.SPDInfo) (inp mip0 : ImageView)
  : list Command :=
  let wg_x := wrap32 (get_view_width mip0 + 31) / 32 in
  let wg_y := wrap32 (get_view_height mip0 + 31) / 32 in
  [ push_constants
      {| base_image_resolution := (get_view_width mip0, get_view_height mip0);
         inv_resolution := (get_view_width inp, get_view_height inp);
         mips := SPD.num_mips info;
         num_workgroups := wrap32 (wg_x * wg_y) |};
    enable_subgroup_size_control true;
    set_subgroup_size_log2 true 2 7;
    dispatch wg_x wg_y 1;
    enable_subgroup_size_control false ].

(** Commands that set push constants, subgroup size control or dispatch. *)
Definition is_dispatch_control (c : Command) : bool :=
  match c with
  | push_constants _ | enable_subgroup_size_control _
  | set_subgroup_size_log2 _ _ _ | dispatch _ _ _ => true
  | _ => false
  end.

(** [reset_before_bake fresh cs]: in [cs] every [bake] comes after a [reset]
    with no other [bake] in between; [fresh] tells whether such a [reset]
    already came before [cs]. *)
Fixpoint reset_before_bake (fresh : bool) (cs : list GraphCall) : bool :=
  match cs with
  | [] => true
  | reset :: cs' => reset_before_bake true cs'
  | bake :: cs' => fresh && reset_before_bake false cs'
  | _ :: cs' => reset_before_bake fresh cs'
  end.

(** Whether the graph is reset and not yet baked after [cs]. *)
Fixpoint fresh_after (fresh : bool) (cs : list GraphCall) : bool :=
  match cs with
  | [] => fresh
  | reset :: cs' => fresh_after true cs'
  | bake :: cs' => fresh_after false cs'
  | _ :: cs' => fresh_after fresh cs'
  end.

Definition is_reset (c : GraphCall) : bool :=
  match c with reset => true | _ => false end.

Definition is_bake (c : GraphCall) : bool :=
  match c with bake => true | _ => false end.

Definition is_enqueue (c : GraphCall) : bool :=
  match c with enqueue_render_passes _ => true | _ => false end.

Definition count (p : GraphCall -> bool) (cs : list GraphCall) : nat :=
  length (List.filter p cs).

End Recorded.

(** The entry points of the scene viewer that the platform invokes, and a
    run of them in any order. *)
Module Driver.

Inductive Step :=
| swapchain_changed (swap : SceneViewer.SwapchainParameterEvent)
| swapchain_destroyed
| frame (frame_time elapsed_time : float64).

Definition step (env : gmap string string)
    (app : SceneViewer.SceneViewerApplication) (s : Step)
  : SceneViewer.SceneViewerApplication :=
  match s with
  | swapchain_changed swap => SceneViewer.on_swapchain_changed env app swap
  | swapchain_destroyed => SceneViewer.on_swapchain_destroyed app
  | frame frame_time elapsed_time =>
      SceneViewer.render_frame app frame_time elapsed_time
  end.

Definition drive (env : gmap string string)
    (app : SceneViewer.SceneViewerApplication) (steps : list Step)
  : SceneViewer.SceneViewerApplication :=
  foldl (step env) app steps.

Definition is_change (s : Step) : bool :=
  match s with swapchain_changed _ => true | _ => false end.

Definition is_frame (s : Step) : bool :=
  match s with frame _ _ => true | _ => false end.

(** The calls one iteration of [Application::run] makes on the collaborators
    other than the graph. *)
Definition frame_calls (elapsed_time : float64) : list SceneViewer.Call :=
  [ SceneViewer.filesystem_poll_notifications;
    SceneViewer.wsi_begin_frame;
    SceneViewer.animation_system_animate elapsed_time;
    SceneViewer.context_set_camera;
    SceneViewer.visible_clear;
    SceneViewer.window_set_background_color (SceneViewer.vec4_splat f32_one);
    SceneViewer.window_set_margin 5;
    SceneViewer.window_set_floating_position 40 40;
    SceneViewer.window_set_title "My Window";
    SceneViewer.scene_update_cached_transforms;
    SceneViewer.scene_refresh_per_frame;
    SceneViewer.scene_gather_visible_opaque_renderables;
    SceneViewer.scene_gather_background_renderables;
    SceneViewer.renderer_begin;
    SceneViewer.renderer_push_renderables;
    SceneViewer.wsi_end_frame ].

End Driver.

(** The reference that the non-const [get] of a variant returns. *)
Module VariantRef.

Section Ref.

Context {ty : Type} `{EqDecision ty} (value_of : ty -> Type).

(** [T &get()]: the value the reference designates, and the variant that an
    assignment through the reference leaves.  Defined as [get] is. *)
Definition get_ref (T : ty) (v : Variant.Variant value_of)
  : option (value_of T * (value_of T -> Variant.Variant value_of)) :=
  match Variant.value value_of v with
  | None => None
  | Some h =>
      match decide (Variant.holder_type value_of h = T) with
      | left e =>
          Some (eq_rect (Variant.holder_type value_of h) value_of
                        (Variant.holder_value value_of h) T e,
                fun x => {| Variant.value := Some (Variant.HolderValue value_of T x) |})
      | right _ => None
      end
  end.

End Ref.

End VariantRef.

(** * Properties *)

(** ** Machine numbers and flag words *)

Lemma wrap32_small z : is_u32 z -> wrap32 z = z.
Proof. unfold is_u32, wrap32. intros H. apply Z.mod_small. exact H. Qed.



Lemma wrap32_range z : is_u32 (wrap32 z).
Proof. unfold is_u32, wrap32, u32_mod. apply Z.mod_pos_bound. lia. Qed.

Lemma f32_one_is_one : f32_decode f32_one = Some (2 ^ 23, -23).
Proof. reflexivity. Qed.

Lemma f32_zero_is_zero : f32_decode f32_zero = Some (0, -149).
Proof. reflexivity. Qed.

Lemma flag_set_testbit (flags k : Z) :
  0 <= k -> (flag_set flags (2 ^ k) <-> Z.testbit flags k = true).
Proof.
  intros Hk. unfold flag_set. split.
  - intros Hne. destruct (Z.testbit flags k) eqn:E; [reflexivity|].
    exfalso. apply Hne. apply Z.bits_inj'. intros i Hi.
    rewrite Z.land_spec, Z.bits_0, Z.pow2_bits_eqb by lia.
    destruct (Z.eqb_spec k i) as [->|_].
    + rewrite E. reflexivity.
    + apply andb_false_r.
  - intros Hb Hz.
    assert (Z.testbit (Z.land flags (2 ^ k)) k = true) as Hc.
    { rewrite Z.land_spec, Hb, Z.pow2_bits_eqb, Z.eqb_refl by lia. reflexivity. }
    rewrite Hz, Z.bits_0 in Hc. discriminate.
Qed.

Lemma land_two_bits (flags j k : Z) :
  0 <= j -> 0 <= k ->
  (Z.land flags (Z.lor (2 ^ j) (2 ^ k)) = Z.lor (2 ^ j) (2 ^ k)
   <-> Z.testbit flags j = true /\ Z.testbit flags k = true).
Proof.
  intros Hj Hk. split.
  - intros Heq. split.
    + apply (f_equal (fun z => Z.testbit z j)) in Heq.
      rewrite Z.land_spec, Z.lor_spec, !Z.pow2_bits_eqb, Z.eqb_refl in Heq by lia.
      simpl in Heq. rewrite andb_true_r in Heq. exact Heq.
    + apply (f_equal (fun z => Z.testbit z k)) in Heq.
      rewrite Z.land_spec, Z.lor_spec, !Z.pow2_bits_eqb, Z.eqb_refl in Heq by lia.
      rewrite orb_true_r, andb_true_r in Heq. exact Heq.
  - intros [Bj Bk]. apply Z.bits_inj'. intros i Hi.
    rewrite Z.land_spec, Z.lor_spec, !Z.pow2_bits_eqb by lia.
    destruct (Z.eqb_spec j i) as [->|_]; [rewrite Bj; reflexivity|].
    destruct (Z.eqb_spec k i) as [->|_]; [rewrite Bk; reflexivity|].
    apply andb_false_r.
Qed.

Lemma quad_basic_required (ops : Z) :
  Z.land ops (Z.lor VK_SUBGROUP_FEATURE_BASIC_BIT VK_SUBGROUP_FEATURE_QUAD_BIT)
  = Z.lor VK_SUBGROUP_FEATURE_BASIC_BIT VK_SUBGROUP_FEATURE_QUAD_BIT
  <-> flag_set ops VK_SUBGROUP_FEATURE_BASIC_BIT
      /\ flag_set ops VK_SUBGROUP_FEATURE_QUAD_BIT.
Proof.
  change VK_SUBGROUP_FEATURE_BASIC_BIT with (2 ^ 0).
  change VK_SUBGROUP_FEATURE_QUAD_BIT with (2 ^ 7).
  rewrite land_two_bits, !flag_set_testbit by lia. reflexivity.
Qed.

(** ** The capability query *)

(** C2: [supports_single_pass_downsample] answers true exactly when the
    device supports full subgroups of size 2^2..2^7, subgroup operations in
    the compute stage, a first work-group dimension of at least 256, dynamic
    indexing of storage-image arrays, storage writes and storage reads without
    format for the format's optimal tiling, and the BASIC and QUAD subgroup
    operations; on a false answer the calling collaborator takes the
    multi-pass path. *)
Theorem supports_single_pass_downsample_iff (device : Device) (fmt : VkFormat) :
  (SPD.supports_single_pass_downsample device fmt = true <->
     supports_subgroup_size_log2 device true 2 7 = true
     /\ flag_set (supportedStages (subgroup_properties (get_device_features device)))
                 VK_SHADER_STAGE_COMPUTE_BIT
     /\ 256 <= fst (fst (maxComputeWorkGroupSize device))
     /\ shaderStorageImageArrayDynamicIndexing (get_device_features device) <> 0
     /\ flag_set (optimalTilingFeatures (get_format_properties device fmt))
                 VK_FORMAT_FEATURE_2_STORAGE_WRITE_WITHOUT_FORMAT_BIT_KHR
     /\ flag_set (optimalTilingFeatures (get_format_properties device fmt))
                 VK_FORMAT_FEATURE_2_STORAGE_READ_WITHOUT_FORMAT_BIT_KHR
     /\ flag_set (supportedOperations (subgroup_properties (get_device_features device)))
                 VK_SUBGROUP_FEATURE_BASIC_BIT
     /\ flag_set (supportedOperations (subgroup_properties (get_device_features device)))
                 VK_SUBGROUP_FEATURE_QUAD_BIT)
  /\ (SPD.supports_single_pass_downsample device fmt = false ->
      SPD.select_downsample_path device fmt = SPD.MultiPassDownsample).
Proof.
  split.
  - unfold SPD.supports_single_pass_downsample.
    rewrite <- quad_basic_required. unfold flag_set.
    destruct (Z.ltb_spec (fst (fst (maxComputeWorkGroupSize device))) 256);
      [intuition (discriminate || lia)|].
    destruct (Z.eqb_spec (shaderStorageImageArrayDynamicIndexing
                            (get_device_features device)) 0);
      [intuition (discriminate || lia)|].
    destruct (Z.eqb_spec
                (Z.land (optimalTilingFeatures (get_format_properties device fmt))
                        VK_FORMAT_FEATURE_2_STORAGE_WRITE_WITHOUT_FORMAT_BIT_KHR) 0);
      [intuition (discriminate || lia)|].
    destruct (Z.eqb_spec
                (Z.land (optimalTilingFeatures (get_format_properties device fmt))
                        VK_FORMAT_FEATURE_2_STORAGE_READ_WITHOUT_FORMAT_BIT_KHR) 0);
      [intuition (discriminate || lia)|].
    cbv zeta. rewrite !andb_true_iff, negb_true_iff, Z.eqb_neq, Z.eqb_eq.
    intuition.
  - intros Hf. unfold SPD.select_downsample_path. rewrite Hf. reflexivity.
Qed.

(** The example device passes the query. *)
Lemma supports_single_pass_downsample_witness :
  SPD.supports_single_pass_downsample Example.device VK_FORMAT_R16_SFLOAT = true.
Proof.
  apply (proj1 (supports_single_pass_downsample_iff Example.device VK_FORMAT_R16_SFLOAT)).
  unfold flag_set. repeat split; try reflexivity; vm_compute; discriminate.
Defined.

(** ** The level count of the depth hierarchy *)

Lemma shiftr_ge_1 (m i : Z) : 0 < m -> 0 <= i <= Z.log2 m -> 1 <= Z.shiftr m i.
Proof.
  intros Hm Hi. rewrite Z.shiftr_div_pow2 by lia.
  apply Z.div_le_lower_bound; [apply Z.pow_pos_nonneg; lia|].
  rewrite Z.mul_1_r. transitivity (2 ^ Z.log2 m).
  - apply Z.pow_le_mono_r; lia.
  - apply Z.log2_spec. exact Hm.
Qed.

Lemma shiftr_past_log2 (m : Z) : 0 < m -> Z.shiftr m (Z.log2 m + 1) = 0.
Proof.
  intros Hm. rewrite Z.shiftr_div_pow2 by (pose proof (Z.log2_nonneg m); lia).
  apply Z.div_small. pose proof (Z.log2_spec m Hm).
  replace (Z.log2 m + 1) with (Z.succ (Z.log2 m)) by lia. lia.
Qed.

Lemma levels_fit (m : Z) : 0 < m < u32_mod -> is_u32 (Z.log2 m + 1).
Proof.
  intros Hm. unfold is_u32, u32_mod in *.
  assert (Z.log2 m < 32) by (apply Z.log2_lt_pow2; lia).
  pose proof (Z.log2_nonneg m). lia.
Qed.

(** C1: for an input of resolved extent [w] x [h], both at least 1,
    [setup_depth_hierarchy_pass] declares its storage-texture output with
    floor(log2(min(w,h))) + 1 levels; that is 9 for 513x300; every level
    below that count has at least one texel on both axes, and one level more
    would leave an axis without a texel. *)
Theorem setup_depth_hierarchy_pass_levels
    (MaxSPDMips : Z) (graph : RenderGraph) (context : RenderContext)
    (input output : string) (w h : Z) :
  width (get_resource_dimensions graph input) = w ->
  height (get_resource_dimensions graph input) = h ->
  1 <= w < u32_mod -> 1 <= h < u32_mod ->
  graph_calls (fst (SPD.setup_depth_hierarchy_pass MaxSPDMips graph context input output))
  = graph_calls graph ++
    [ add_pass output RENDER_GRAPH_QUEUE_COMPUTE_BIT;
      on_pass output (add_texture_input input);
      on_pass output
        (add_storage_texture_output output
           {| size_class := InputRelative; format := VK_FORMAT_R16_SFLOAT;
              size_relative_name := input;
              levels := Z.log2 (Z.min w h) + 1 |});
      on_pass output
        (add_storage_output (output ++ "-counter")
           {| size := 4; usage := VK_BUFFER_USAGE_STORAGE_BUFFER_BIT |});
      on_pass output set_build_render_pass ]
  /\ (w = 513 -> h = 300 -> Z.log2 (Z.min w h) + 1 = 9)
  /\ (forall i, 0 <= i < Z.log2 (Z.min w h) + 1 ->
        1 <= Z.shiftr w i /\ 1 <= Z.shiftr h i)
  /\ (Z.shiftr w (Z.log2 (Z.min w h) + 1) = 0
      \/ Z.shiftr h (Z.log2 (Z.min w h) + 1) = 0).
Proof.
  intros Hw Hh Bw Bh.
  assert (0 < Z.min w h < u32_mod) as Bm by lia.
  repeat split.
  - unfold SPD.setup_depth_hierarchy_pass, graph_call. simpl.
    rewrite Hw, Hh. unfold Util.floor_log2.
    rewrite (wrap32_small _ (levels_fit _ Bm)).
    rewrite <- !app_assoc. reflexivity.
  - intros -> ->. reflexivity.
  - apply shiftr_ge_1; [lia|]. split; [lia|].
    transitivity (Z.log2 (Z.min w h)); [lia|]. apply Z.log2_le_mono. lia.
  - apply shiftr_ge_1; [lia|]. split; [lia|].
    transitivity (Z.log2 (Z.min w h)); [lia|]. apply Z.log2_le_mono. lia.
  - destruct (Z.min_spec w h) as [[_ ->]|[_ ->]].
    + left. apply shiftr_past_log2. lia.
    + right. apply shiftr_past_log2. lia.
Qed.

(** The 513x300 input of the design's scenario. *)
Lemma setup_depth_hierarchy_pass_levels_witness :
  In (on_pass "hiz"
        (add_storage_texture_output "hiz"
           {| size_class := InputRelative; format := VK_FORMAT_R16_SFLOAT;
              size_relative_name := "depth"; levels := 9 |}))
     (graph_calls (fst (SPD.setup_depth_hierarchy_pass Example.MaxSPDMips
                          Example.graph Example.context "depth" "hiz"))).
Proof.
  rewrite (proj1 (setup_depth_hierarchy_pass_levels Example.MaxSPDMips
                    Example.graph Example.context "depth" "hiz" 513 300
                    eq_refl eq_refl ltac:(unfold u32_mod; lia)
                    ltac:(unfold u32_mod; lia))).
  simpl. right. right. left. reflexivity.
Defined.

(** ** The storage-texture slots of the downsample *)

Lemma mip_index_in_bounds (num i : Z) :
  is_u32 num -> 1 <= num -> 0 <= i ->
  0 <= SPD.mip_index num i < num
  /\ (i < num -> SPD.mip_index num i = i)
  /\ (num - 1 <= i -> SPD.mip_index num i = num - 1).
Proof.
  intros Hn H1 Hi. unfold SPD.mip_index.
  rewrite wrap32_small by (unfold is_u32 in *; lia). lia.
Qed.

Lemma mip_index_wraps (i : Z) :
  0 <= i < u32_mod -> SPD.mip_index 0 i = i.
Proof.
  intros Hi. unfold SPD.mip_index, wrap32, u32_mod in *.
  change ((0 - 1) mod 2 ^ 32) with (2 ^ 32 - 1). lia.
Qed.

Section BindOutputMips.

Variable info : SPD.SPDInfo.

Let slot_view (k : Z) : option ImageView :=
  SPD.read_mip info (SPD.mip_index (SPD.num_mips info) k).

Lemma bind_output_mips_spec (todo : nat) :
  forall (i : Z) (cmd cmd' : CommandBuffer),
    SPD.bind_output_mips todo i info cmd = Some cmd' ->
    (forall k, i <= k < i + Z.of_nat todo ->
       exists v, slot_view k = Some v
                 /\ set_storage_texture 0 (wrap32 (2 + k)) v ∈ cmd')
    /\ (forall c, c ∈ cmd -> c ∈ cmd')
    /\ (forall c, c ∈ cmd' ->
          c ∈ cmd \/ exists k v, i <= k < i + Z.of_nat todo
                                 /\ slot_view k = Some v
                                 /\ c = set_storage_texture 0 (wrap32 (2 + k)) v).
Proof.
  induction todo as [|todo IH]; intros i cmd cmd' Hb; simpl in Hb.
  - injection Hb as <-. repeat split; [lia | auto | auto].
  - destruct (SPD.read_mip info (SPD.mip_index (SPD.num_mips info) i))
      as [v|] eqn:Hv; simpl in Hb; [|discriminate].
    destruct (IH _ _ _ Hb) as (Hall & Hmono & Honly).
    assert (set_storage_texture 0 (wrap32 (2 + i)) v ∈ cmd') as Hi.
    { apply Hmono, elem_of_app. right. apply list_elem_of_singleton. reflexivity. }
    repeat split.
    + intros k Hk. destruct (Z.eq_dec k i) as [->|Hne].
      * exists v. split; [exact Hv | exact Hi].
      * apply Hall. lia.
    + intros c Hc. apply Hmono, elem_of_app. left. exact Hc.
    + intros c Hc. destruct (Honly c Hc) as [Hc'|(k & v' & Hk & Hkv & ->)].
      * apply elem_of_app in Hc' as [Hc'|Hc']; [left; exact Hc'|].
        apply list_elem_of_singleton in Hc' as ->.
        right. exists i, v. repeat split; [lia | lia | exact Hv].
      * right. exists k, v'. repeat split; [lia | lia | exact Hkv].
Qed.

Lemma bind_output_mips_defined (todo : nat) :
  forall (i : Z) (cmd : CommandBuffer),
    (forall k, i <= k < i + Z.of_nat todo -> is_Some (slot_view k)) ->
    is_Some (SPD.bind_output_mips todo i info cmd).
Proof.
  induction todo as [|todo IH]; intros i cmd Hall; simpl.
  - eexists. reflexivity.
  - destruct (Hall i ltac:(lia)) as [v Hv]. unfold slot_view in Hv.
    rewrite Hv. simpl. apply IH. intros k Hk. apply Hall. lia.
Qed.

End BindOutputMips.

Lemma emit_single_pass_downsample_defined
    (MaxSPDMips : Z) (cmd : CommandBuffer) (info : SPD.SPDInfo) :
  is_u32 (SPD.num_mips info) -> 1 <= SPD.num_mips info ->
  is_Some (SPD.input info) -> is_Some (SPD.counter_buffer info) ->
  SPD.filter_mod info = None ->
  (forall idx, 0 <= idx < SPD.num_mips info -> is_Some (SPD.read_mip info idx)) ->
  is_Some (SPD.emit_single_pass_downsample MaxSPDMips cmd info).
Proof.
  intros Hnum H1 [inp Hin] [cb Hcb] Hfm Hslots.
  unfold SPD.emit_single_pass_downsample. rewrite Hin, Hcb, Hfm. simpl.
  match goal with
  | |- context [SPD.bind_output_mips ?t ?i ?inf ?c] =>
      destruct (bind_output_mips_defined inf t i c) as [cmd1 ->]
  end.
  { intros k Hk. apply Hslots.
    destruct (mip_index_in_bounds (SPD.num_mips info) k Hnum); lia. }
  simpl. destruct (Hslots 0 ltac:(lia)) as [mip0 ->]. simpl.
  eexists. reflexivity.
Qed.

(** C9: for every [i] below [MaxSPDMips], [emit_single_pass_downsample]
    binds at slot [2 + i] the output mip at index min(i, num_mips - 1), and
    binds no other storage texture.  When 1 <= num_mips <= MaxSPDMips every
    index read is below [num_mips], the slots from [num_mips] on bind the
    last mip again, and the call is defined as soon as the first [num_mips]
    array slots, the input and the counter buffer are there.  When
    [num_mips] is 0 the subtraction wraps, index [i] is read for slot [i],
    which is outside the array. *)
Theorem emit_single_pass_downsample_slots
    (MaxSPDMips : Z) (cmd : CommandBuffer) (info : SPD.SPDInfo) :
  is_u32 MaxSPDMips ->
  is_u32 (SPD.num_mips info) ->
  (forall cmd',
     SPD.emit_single_pass_downsample MaxSPDMips cmd info = Some cmd' ->
     (forall i, 0 <= i < MaxSPDMips ->
        exists v, SPD.read_mip info (SPD.mip_index (SPD.num_mips info) i) = Some v
                  /\ set_storage_texture 0 (wrap32 (2 + i)) v ∈ cmd')
     /\ (forall s b v, set_storage_texture s b v ∈ cmd' ->
           set_storage_texture s b v ∈ cmd
           \/ (s = 0 /\ exists i, 0 <= i < MaxSPDMips /\ b = wrap32 (2 + i)
                 /\ SPD.read_mip info (SPD.mip_index (SPD.num_mips info) i) = Some v)))
  /\ (1 <= SPD.num_mips info <= MaxSPDMips ->
      (forall i, 0 <= i < MaxSPDMips ->
         0 <= SPD.mip_index (SPD.num_mips info) i < SPD.num_mips info
         /\ (SPD.num_mips info <= i ->
             SPD.mip_index (SPD.num_mips info) i = SPD.num_mips info - 1))
      /\ (is_Some (SPD.input info) -> is_Some (SPD.counter_buffer info) ->
          SPD.filter_mod info = None ->
          (forall idx, 0 <= idx < SPD.num_mips info ->
             is_Some (SPD.read_mip info idx)) ->
          is_Some (SPD.emit_single_pass_downsample MaxSPDMips cmd info)))
  /\ (SPD.num_mips info = 0 ->
      (forall i, 0 <= i < MaxSPDMips ->
         SPD.mip_index (SPD.num_mips info) i = i
         /\ ~ SPD.mip_index (SPD.num_mips info) i < SPD.num_mips info)
      /\ (0 < MaxSPDMips ->
          (forall idx, SPD.num_mips info <= idx -> SPD.read_mip info idx = None) ->
          SPD.emit_single_pass_downsample MaxSPDMips cmd info = None)).
Proof.
  intros HM Hnum. split; [|split].
  - intros cmd' He. unfold SPD.emit_single_pass_downsample in He.
    destruct (SPD.input info) as [inp|]; simpl in He; [|discriminate].
    destruct (SPD.counter_buffer info) as [cb|]; simpl in He; [|discriminate].
    match type of He with
    | context [SPD.bind_output_mips ?t ?i ?inf ?c] =>
        destruct (SPD.bind_output_mips t i inf c) as [cmd1|] eqn:Hb
    end; simpl in He; [|discriminate].
    apply bind_output_mips_spec in Hb as (Hall & _ & Honly).
    rewrite Z2Nat.id in Hall, Honly by (unfold is_u32 in HM; lia).
    assert (exists front back,
              cmd' = cmd1 ++ front ++ back
              /\ (forall s b v, set_storage_texture s b v ∉ front ++ back))
      as (front & back & -> & Hnone).
    { destruct (SPD.filter_mod info) as [data|]; simpl in He.
      - destruct (SPD.num_mips info <=? Z.of_nat (length data));
          simpl in He; [|discriminate].
        destruct (SPD.read_mip info 0) as [mip0|]; simpl in He; [|discriminate].
        injection He as <-.
        destruct (SPD.z_transform info);
          eexists [_], _; rewrite <- ?app_assoc;
          (split; [reflexivity|]);
          intros s b v Hin; simpl in Hin;
          repeat (apply elem_of_cons in Hin as [Hin|Hin]; [discriminate|]);
          inversion Hin.
      - destruct (SPD.read_mip info 0) as [mip0|]; simpl in He; [|discriminate].
        injection He as <-.
        destruct (SPD.z_transform info);
          eexists [], _; rewrite <- ?app_assoc;
          (split; [reflexivity|]);
          intros s b v Hin; simpl in Hin;
          repeat (apply elem_of_cons in Hin as [Hin|Hin]; [discriminate|]);
          inversion Hin. }
    split.
    + intros i Hi. destruct (Hall i ltac:(lia)) as (v & Hv & Hin).
      exists v. split; [exact Hv|]. apply elem_of_app. left. exact Hin.
    + intros s b v Hin. apply elem_of_app in Hin as [Hin|Hin];
        [|exfalso; exact (Hnone _ _ _ Hin)].
      destruct (Honly _ Hin) as [Hc|(k & v' & Hk & Hkv & Heq)].
      * rewrite !elem_of_app in Hc. destruct Hc as [[[Hc|Hc]|Hc]|Hc].
        -- left. exact Hc.
        -- apply list_elem_of_singleton in Hc. discriminate.
        -- apply list_elem_of_singleton in Hc. discriminate.
        -- apply list_elem_of_singleton in Hc. discriminate.
      * injection Heq as -> -> ->. right. split; [reflexivity|].
        exists k. repeat split; [lia | lia | exact Hkv].
  - intros Hrange. split.
    + intros i Hi.
      destruct (mip_index_in_bounds (SPD.num_mips info) i Hnum) as (Hb & _ & Hlast);
        [lia | lia |].
      split; [exact Hb|]. intros Hge. apply Hlast. lia.
    + intros Hin Hcb Hfm Hslots.
      apply emit_single_pass_downsample_defined; [assumption | lia | assumption..].
  - intros H0. split.
    + intros i Hi. rewrite H0.
      rewrite mip_index_wraps by (unfold is_u32 in HM; lia). lia.
    + intros Hpos Hnone. unfold SPD.emit_single_pass_downsample.
      destruct (SPD.input info) as [inp|]; simpl; [|reflexivity].
      destruct (SPD.counter_buffer info) as [cb|]; simpl; [|reflexivity].
      destruct (Z.to_nat MaxSPDMips) as [|todo] eqn:Ht; [lia|].
      simpl. rewrite (Hnone (SPD.mip_index (SPD.num_mips info) 0)).
      * reflexivity.
      * rewrite H0, mip_index_wraps by (unfold u32_mod; lia). lia.
Qed.

(** Two mips bound to the twelve slots: slot 2 + 5 rebinds mip 1. *)
Lemma emit_single_pass_downsample_slots_witness :
  (0 <= SPD.mip_index 2 5 < 2 /\ SPD.mip_index 2 5 = 2 - 1)
  /\ is_Some (SPD.emit_single_pass_downsample Example.MaxSPDMips [] Example.spd_info).
Proof.
  assert (is_u32 Example.MaxSPDMips) as HM
    by (unfold is_u32, u32_mod, Example.MaxSPDMips; lia).
  assert (is_u32 (SPD.num_mips Example.spd_info)) as Hn
    by (unfold is_u32, u32_mod; simpl; lia).
  destruct (emit_single_pass_downsample_slots Example.MaxSPDMips []
              Example.spd_info HM Hn) as (_ & Hin & _).
  destruct Hin as (Hidx & Hdef); [unfold Example.MaxSPDMips; simpl; lia|].
  split.
  - destruct (Hidx 5) as (Hb & Hl); [unfold Example.MaxSPDMips; lia|].
    split; [exact Hb|]. apply Hl. simpl. lia.
  - apply Hdef.
    + eexists. reflexivity.
    + eexists. reflexivity.
    + reflexivity.
    + intros idx Hidx'. simpl in Hidx'.
      assert (idx = 0 \/ idx = 1) as [-> | ->] by lia; eexists; reflexivity.
Defined.

(** ** The cached per-mip views of the depth hierarchy *)

Section MipViews.

Variable MaxSPDMips : Z.
Variable image : Image.

Lemma create_image_view_extent (dev : Device) (vi : ImageViewCreateInfo) :
  view_extent (fst (create_image_view dev vi)) = view_extent dev.
Proof. reflexivity. Qed.

Lemma mip_view_extent_only (dev dev' : Device) (i : Z) :
  view_extent dev' = view_extent dev ->
  SPD.mip_view dev' image i = SPD.mip_view dev image i.
Proof. intros He. unfold SPD.mip_view, create_image_view. simpl. rewrite He. reflexivity. Qed.

Lemma create_mip_views_spec (todo : nat) :
  forall (i : Z) (dev : Device) (vs : list ImageView)
         (slots : list (option ImageView)),
    0 <= i ->
    (Z.to_nat i + todo <= length slots)%nat ->
    exists dev' slots',
      SPD.create_mip_views todo i image dev vs slots
      = Some (dev', vs ++ (SPD.mip_view dev image <$> seqZ i (Z.of_nat todo)), slots')
      /\ created_views dev'
         = created_views dev ++ (SPD.mip_view dev image <$> seqZ i (Z.of_nat todo))
      /\ view_extent dev' = view_extent dev
      /\ length slots' = length slots
      /\ (forall k, i <= k < i + Z.of_nat todo ->
            slots' !! Z.to_nat k = Some (Some (SPD.mip_view dev image k)))
      /\ (forall j, (j < Z.to_nat i)%nat -> slots' !! j = slots !! j).
Proof.
  induction todo as [|todo IH]; intros i dev vs slots Hi Hlen.
  - exists dev, slots. simpl. rewrite !app_nil_r.
    repeat split; auto. intros k Hk. lia.
  - cbn [SPD.create_mip_views]. unfold create_image_view at 1. cbv iota beta zeta.
    rewrite bool_decide_true by lia.
    match goal with
    | |- context [SPD.create_mip_views todo (i + 1) image ?d ?v ?s] =>
        pose proof (IH (i + 1) d v s) as IH';
        change (SPD.mip_view d image) with (SPD.mip_view dev image) in IH';
        change (view_extent d) with (view_extent dev) in IH';
        change (created_views d) with
          (created_views dev ++ [SPD.mip_view dev image i]) in IH'
    end.
    destruct IH' as (dev' & slots' & Hrun & Hcv & Hext & Hl & Hset & Hkeep);
      [lia | rewrite length_insert; lia |].
    exists dev', slots'.
    assert (seqZ i (Z.of_nat (S todo)) = i :: seqZ (i + 1) (Z.of_nat todo)) as Hseq.
    { rewrite seqZ_cons by lia. f_equal. f_equal; lia. }
    rewrite Hseq, fmap_cons.
    repeat split.
    + rewrite Hrun. rewrite <- app_assoc. reflexivity.
    + rewrite Hcv. simpl. rewrite <- app_assoc. reflexivity.
    + rewrite Hext. reflexivity.
    + rewrite Hl, length_insert. reflexivity.
    + intros k Hk. destruct (Z.eq_dec k i) as [->|Hne].
      * rewrite Hkeep by lia. rewrite list_lookup_insert_eq by lia. reflexivity.
      * rewrite Hset by lia. reflexivity.
    + intros j Hj. rewrite Hkeep by lia. apply list_lookup_insert_ne. lia.
Qed.

End MipViews.

Section BuildRenderPass.

Variable MaxSPDMips : Z.
Variable graph : RenderGraph.
Variable context : RenderContext.
Hypothesis MaxSPDMips_u32 : is_u32 MaxSPDMips.

Lemma build_render_pass_first (h : SPD.SPDPassState) (dev : Device)
    (cmd : CommandBuffer) (image : Image) (n : Z) :
  SPD.views h = [] ->
  length (SPD.state_output_mips h) = Z.to_nat MaxSPDMips ->
  SPD.filter_mod (SPD.info h) = None ->
  get_image (get_physical_texture_resource graph (SPD.otex h)) = image ->
  img_levels (get_create_info image) = n ->
  1 <= n <= MaxSPDMips ->
  exists h' dev' cmd',
    SPD.build_render_pass MaxSPDMips graph context h dev cmd = Some (h', dev', cmd')
    /\ SPD.views_cached dev image n h'
    /\ created_views dev' = created_views dev ++ SPD.views h'
    /\ view_extent dev' = view_extent dev.
Proof.
  intros Hv Hlen Hfm Himg Hn Hrange.
  unfold SPD.build_render_pass. rewrite Hv, Himg, Hn.
  destruct (Z.leb_spec n MaxSPDMips) as [_|]; [|lia].
  destruct (create_mip_views_spec image (Z.to_nat n) 0 dev []
              (SPD.state_output_mips h))
    as (dev' & slots' & Hrun & Hcv & Hext & Hl & Hset & _); [lia | lia |].
  rewrite Z2Nat.id in Hrun, Hcv, Hset by lia.
  rewrite Hrun. cbn [mbind option_bind app]. cbv beta iota zeta.
  match goal with
  | |- context [SPD.emit_single_pass_downsample MaxSPDMips cmd ?i] =>
      destruct (emit_single_pass_downsample_defined MaxSPDMips cmd i)
        as [cmd' Hemit]
  end; simpl.
  - unfold is_u32 in *. lia.
  - lia.
  - eexists. reflexivity.
  - eexists. reflexivity.
  - exact Hfm.
  - intros idx Hidx. unfold SPD.read_mip. simpl. rewrite Hset by lia.
    eexists. reflexivity.
  - simpl in Hemit. rewrite Hemit. simpl.
    eexists _, dev', cmd'. split; [reflexivity|].
    split; [|split; [exact Hcv | exact Hext]].
    unfold SPD.views_cached. simpl. repeat split; [exact Hfm|].
    intros k Hk. unfold SPD.read_mip. simpl. rewrite Hset by lia. reflexivity.
Qed.

Lemma build_render_pass_later (h : SPD.SPDPassState) (dev dev0 : Device)
    (cmd : CommandBuffer) (image : Image) (n : Z) :
  SPD.views_cached dev0 image n h ->
  1 <= n <= MaxSPDMips ->
  exists h' cmd',
    SPD.build_render_pass MaxSPDMips graph context h dev cmd = Some (h', dev, cmd')
    /\ SPD.views h' = SPD.views h
    /\ SPD.views_cached dev0 image n h'.
Proof.
  intros (Hv & Hnum & Hfm & Hslots) Hrange.
  unfold SPD.build_render_pass.
  assert (exists v vs, SPD.views h = v :: vs) as (v & vs & Hcons).
  { rewrite Hv, seqZ_cons by lia. simpl. eauto. }
  rewrite Hcons. cbn [mbind option_bind]. cbv beta iota zeta.
  match goal with
  | |- context [SPD.emit_single_pass_downsample MaxSPDMips cmd ?i] =>
      destruct (emit_single_pass_downsample_defined MaxSPDMips cmd i)
        as [cmd' Hemit]
  end; simpl.
  - rewrite Hnum. unfold is_u32 in *. lia.
  - lia.
  - eexists. reflexivity.
  - eexists. reflexivity.
  - exact Hfm.
  - intros idx Hidx. rewrite Hnum in Hidx.
    specialize (Hslots idx Hidx). unfold SPD.read_mip in *. simpl.
    rewrite Hslots. eexists. reflexivity.
  - simpl in Hemit. rewrite Hemit. simpl.
    eexists _, cmd'. split; [reflexivity|]. split; [simpl; congruence|].
    unfold SPD.views_cached. simpl. repeat split; try assumption.
Qed.

Lemma run_frames_cached (frames : list CommandBuffer) :
  forall (h : SPD.SPDPassState) (dev dev0 : Device) (image : Image) (n : Z),
    SPD.views_cached dev0 image n h ->
    1 <= n <= MaxSPDMips ->
    exists h',
      SPD.run_frames MaxSPDMips graph context frames h dev = Some (h', dev)
      /\ SPD.views h' = SPD.views h.
Proof.
  induction frames as [|cmd frames IH]; intros h dev dev0 image n Hc Hrange.
  - exists h. split; reflexivity.
  - destruct (build_render_pass_later h dev dev0 cmd image n Hc Hrange)
      as (h1 & cmd1 & Hb & Hv1 & Hc1).
    destruct (IH h1 dev dev0 image n Hc1 Hrange) as (h2 & Hr & Hv2).
    exists h2. simpl. rewrite Hb. simpl. split; [exact Hr|]. congruence.
Qed.

Lemma build_render_pass_keeps_views (h h' : SPD.SPDPassState) (dev dev' : Device)
    (cmd cmd' : CommandBuffer) :
  SPD.views h <> [] ->
  SPD.build_render_pass MaxSPDMips graph context h dev cmd = Some (h', dev', cmd') ->
  SPD.views h' = SPD.views h /\ dev' = dev.
Proof.
  intros Hne Hb. unfold SPD.build_render_pass in Hb.
  destruct (SPD.views h) as [|v vs] eqn:Hv; [congruence|].
  cbn [mbind option_bind] in Hb. cbv beta iota zeta in Hb.
  match type of Hb with
  | context [SPD.emit_single_pass_downsample MaxSPDMips cmd ?i] =>
      destruct (SPD.emit_single_pass_downsample MaxSPDMips cmd i)
  end; simpl in Hb; [|discriminate].
  injection Hb as <- <- _. simpl. split; [exact Hv | reflexivity].
Qed.

End BuildRenderPass.

(** C3: the first invocation of the build callback on the state that
    [setup_depth_hierarchy_pass] captured creates one view per level of the
    physical output image, the [i]-th on base level [i] with one level, one
    layer and format R16_SFLOAT; every later invocation keeps the cached views
    and creates nothing on the device, and any invocation that finds the cache
    non-empty leaves both as they are. *)
Theorem depth_hierarchy_views_created_once
    (MaxSPDMips : Z) (declared graph : RenderGraph) (context : RenderContext)
    (input output : string) (dev : Device) (cmd : CommandBuffer)
    (image : Image) (n : Z) :
  is_u32 MaxSPDMips ->
  get_image (get_physical_texture_resource graph output) = image ->
  img_levels (get_create_info image) = n ->
  1 <= n <= MaxSPDMips ->
  exists h1 dev1 cmd1,
    SPD.build_render_pass MaxSPDMips graph context
      (snd (SPD.setup_depth_hierarchy_pass MaxSPDMips declared context input output))
      dev cmd
    = Some (h1, dev1, cmd1)
    /\ Z.of_nat (length (SPD.views h1)) = n
    /\ (forall i, 0 <= i < n ->
          exists v, SPD.views h1 !! Z.to_nat i = Some v
                    /\ view_create_info v
                       = {| ivci_image := image; ivci_format := VK_FORMAT_R16_SFLOAT;
                            ivci_base_level := i; ivci_levels := 1;
                            ivci_base_layer := 0; ivci_layers := 1;
                            ivci_view_type := VK_IMAGE_VIEW_TYPE_2D |})
    /\ created_views dev1 = created_views dev ++ SPD.views h1
    /\ (forall frames : list CommandBuffer,
          exists h2,
            SPD.run_frames MaxSPDMips graph context frames h1 dev1 = Some (h2, dev1)
            /\ SPD.views h2 = SPD.views h1)
    /\ (forall h d c h' d' c',
          SPD.views h <> [] ->
          SPD.build_render_pass MaxSPDMips graph context h d c = Some (h', d', c') ->
          SPD.views h' = SPD.views h /\ d' = d).
Proof.
  intros HM Himg Hn Hrange.
  destruct (build_render_pass_first MaxSPDMips graph context HM
              (snd (SPD.setup_depth_hierarchy_pass MaxSPDMips declared context
                      input output))
              dev cmd image n)
    as (h1 & dev1 & cmd1 & Hb & Hc & Hcv & _);
    [reflexivity | apply length_replicate | reflexivity | exact Himg
     | exact Hn | exact Hrange |].
  exists h1, dev1, cmd1. split; [exact Hb|].
  pose proof Hc as (Hv & _).
  split; [|split; [|split; [exact Hcv|split]]].
  - rewrite Hv, length_fmap, length_seqZ. lia.
  - intros i Hi. exists (SPD.mip_view dev image i). split; [|reflexivity].
    rewrite Hv, list_lookup_fmap, lookup_seqZ_lt by lia.
    simpl. do 2 f_equal. lia.
  - intros frames.
    exact (run_frames_cached MaxSPDMips graph context HM frames h1 dev1 dev image n
             Hc Hrange).
  - intros h d c h' d' c'.
    apply (build_render_pass_keeps_views MaxSPDMips graph context).
Qed.

(** Nine views for the nine levels of the 513x300 hierarchy. *)
Lemma depth_hierarchy_views_created_once_witness :
  exists h1 dev1 cmd1,
    SPD.build_render_pass Example.MaxSPDMips Example.graph Example.context
      (snd (SPD.setup_depth_hierarchy_pass Example.MaxSPDMips Example.graph
              Example.context "depth" "hiz"))
      Example.device []
    = Some (h1, dev1, cmd1)
    /\ Z.of_nat (length (SPD.views h1)) = 9
    /\ created_views dev1 = SPD.views h1.
Proof.
  destruct (depth_hierarchy_views_created_once Example.MaxSPDMips Example.graph
              Example.graph Example.context "depth" "hiz" Example.device []
              Example.depth_image 9)
    as (h1 & dev1 & cmd1 & Hb & Hlen & _ & Hcv & _).
  - unfold is_u32, u32_mod, Example.MaxSPDMips. lia.
  - reflexivity.
  - reflexivity.
  - unfold Example.MaxSPDMips. lia.
  - exists h1, dev1, cmd1. split; [exact Hb|]. split; [exact Hlen | exact Hcv].
Defined.

(** ** The scene viewer *)

(** C8: the G-buffer implementation always answers that it provides clear
    values.  Through a pointer to a live object [get_clear_color] leaves four
    zero words and [get_clear_depth_stencil] leaves depth 1.0 and stencil 0,
    and nothing else in the store changes; through a null pointer the store
    is left as it was. *)
Theorem gbuffer_clear_values (index : Z) (value : SceneViewer.pointer)
    (colors : gmap nat SceneViewer.VkClearColorValue)
    (depths : gmap nat SceneViewer.VkClearDepthStencilValue) :
  (fst (SceneViewer.get_clear_color index value colors) = true
   /\ match value with
      | None => snd (SceneViewer.get_clear_color index value colors) = colors
      | Some p =>
          (is_Some (colors !! p) ->
           snd (SceneViewer.get_clear_color index value colors) !! p
           = Some {| SceneViewer.clear_words := (0, 0, 0, 0) |})
          /\ (forall q, q <> p ->
                snd (SceneViewer.get_clear_color index value colors) !! q
                = colors !! q)
      end)
  /\ (fst (SceneViewer.get_clear_depth_stencil value depths) = true
      /\ match value with
         | None => snd (SceneViewer.get_clear_depth_stencil value depths) = depths
         | Some p =>
             (is_Some (depths !! p) ->
              snd (SceneViewer.get_clear_depth_stencil value depths) !! p
              = Some {| SceneViewer.depth := f32_one; SceneViewer.stencil := 0 |})
             /\ (forall q, q <> p ->
                   snd (SceneViewer.get_clear_depth_stencil value depths) !! q
                   = depths !! q)
         end)
  /\ f32_decode f32_one = Some (2 ^ 23, -23).
Proof.
  split; [|split]; [split; [reflexivity|] | split; [reflexivity|] | reflexivity].
  - destruct value as [p|]; [|reflexivity]. simpl. split.
    + intros [old Hold]. rewrite lookup_alter_eq, Hold. reflexivity.
    + intros q Hq. apply lookup_alter_ne. congruence.
  - destruct value as [p|]; [|reflexivity]. simpl. split.
    + intros [old Hold]. rewrite !lookup_alter_eq, Hold. reflexivity.
    + intros q Hq. rewrite !lookup_alter_ne by congruence. reflexivity.
Qed.

Lemma graph_calls_foldl (cs : list GraphCall) :
  forall g, graph_calls (foldl (fun g c => graph_call c g) g cs)
            = graph_calls g ++ cs.
Proof.
  induction cs as [|c cs IH]; intros g; simpl.
  - rewrite app_nil_r. reflexivity.
  - rewrite IH. simpl. rewrite <- app_assoc. reflexivity.
Qed.

(** The calls [on_swapchain_changed] makes on the graph, in order. *)
Lemma on_swapchain_changed_calls (env : gmap string string)
    (app : SceneViewer.SceneViewerApplication)
    (swap : SceneViewer.SwapchainParameterEvent) :
  graph_calls (SceneViewer.graph (SceneViewer.on_swapchain_changed env app swap))
  = graph_calls (SceneViewer.graph app)
    ++ [ reset;
         set_backbuffer_dimensions
           {| dim_format := SceneViewer.get_format swap;
              width := SceneViewer.get_width swap;
              height := SceneViewer.get_height swap |};
         set_backbuffer_source
           (default "backbuffer"%string (SceneViewer.getenv env "GRANITE_SURFACE")) ]
    ++ SceneViewer.declare_passes swap ++ [bake; log].
Proof.
  unfold SceneViewer.on_swapchain_changed. cbn [SceneViewer.graph SceneViewer.with_graph].
  cbn [graph_call graph_calls]. rewrite graph_calls_foldl.
  cbn [graph_call graph_calls]. rewrite <- !app_assoc. reflexivity.
Qed.

(** C4: the handler sets the backbuffer source exactly once, to the value of
    GRANITE_SURFACE when the environment has it and to "backbuffer" when it
    has not. *)
Theorem backbuffer_source_from_environment (env : gmap string string)
    (app : SceneViewer.SceneViewerApplication)
    (swap : SceneViewer.SwapchainParameterEvent) :
  exists added,
    graph_calls (SceneViewer.graph (SceneViewer.on_swapchain_changed env app swap))
    = graph_calls (SceneViewer.graph app) ++ added
    /\ SceneViewer.backbuffer_sources added
       = [default "backbuffer"%string (env !! "GRANITE_SURFACE"%string)]
    /\ (forall name, env !! "GRANITE_SURFACE"%string = Some name ->
          SceneViewer.backbuffer_sources added = [name])
    /\ (env !! "GRANITE_SURFACE"%string = None ->
          SceneViewer.backbuffer_sources added = ["backbuffer"%string]).
Proof.
  eexists. split; [apply on_swapchain_changed_calls|].
  unfold SceneViewer.getenv.
  split; [reflexivity|]. split.
  - intros name ->. reflexivity.
  - intros ->. reflexivity.
Qed.

(** C6: on a swap-chain change the handler calls, in this order, [reset],
    [set_backbuffer_dimensions] with the new extent and format,
    [set_backbuffer_source], the pass declarations, [bake] (and [log]); every
    declaration and the bake have the [reset] before them. *)
Theorem swapchain_change_resets_before_bake (env : gmap string string)
    (app : SceneViewer.SceneViewerApplication)
    (swap : SceneViewer.SwapchainParameterEvent) :
  exists added,
    graph_calls (SceneViewer.graph (SceneViewer.on_swapchain_changed env app swap))
    = graph_calls (SceneViewer.graph app) ++ added
    /\ added
       = [ reset;
           set_backbuffer_dimensions
             {| dim_format := SceneViewer.get_format swap;
                width := SceneViewer.get_width swap;
                height := SceneViewer.get_height swap |};
           set_backbuffer_source
             (default "backbuffer"%string (SceneViewer.getenv env "GRANITE_SURFACE")) ]
         ++ SceneViewer.declare_passes swap ++ [bake; log]
    /\ forallb SceneViewer.is_declaration (SceneViewer.declare_passes swap) = true
    /\ (forall pre c post,
          added = pre ++ c :: post ->
          SceneViewer.is_declaration c = true \/ c = bake ->
          reset ∈ pre).
Proof.
  eexists. split; [apply on_swapchain_changed_calls|].
  split; [reflexivity|]. split; [reflexivity|].
  intros pre c post Heq Hc. destruct pre as [|c0 pre].
  - injection Heq as <- _. destruct Hc as [Hc|Hc]; discriminate.
  - injection Heq as <- _. apply elem_of_cons. left. reflexivity.
Qed.

Lemma render_frame_graph_calls (app : SceneViewer.SceneViewerApplication)
    (frame_time elapsed_time : float64) :
  graph_calls (SceneViewer.graph (SceneViewer.render_frame app frame_time elapsed_time))
  = graph_calls (SceneViewer.graph app)
    ++ SceneViewer.frame_graph_calls (SceneViewer.wsi_device app)
  /\ SceneViewer.wsi_device (SceneViewer.render_frame app frame_time elapsed_time)
     = SceneViewer.wsi_device app.
Proof.
  unfold SceneViewer.render_frame, SceneViewer.frame_graph_calls. simpl.
  rewrite <- app_assoc. split; reflexivity.
Qed.

Lemma run_loop_graph_calls (frames : list (float64 * float64)) :
  forall app : SceneViewer.SceneViewerApplication,
    graph_calls (SceneViewer.graph (SceneViewer.run_loop frames app))
    = graph_calls (SceneViewer.graph app)
      ++ mjoin ((fun _ => SceneViewer.frame_graph_calls (SceneViewer.wsi_device app))
                  <$> frames).
Proof.
  induction frames as [|[frame_time elapsed] frames IH]; intros app.
  - simpl. rewrite app_nil_r. reflexivity.
  - cbn [SceneViewer.run_loop]. rewrite IH. cbn [SceneViewer.with_call
      SceneViewer.graph SceneViewer.wsi_device].
    destruct (render_frame_graph_calls
                (SceneViewer.with_call SceneViewer.wsi_begin_frame
                   (SceneViewer.with_call SceneViewer.filesystem_poll_notifications app))
                frame_time elapsed) as [Hcalls Hdev].
    rewrite Hcalls, Hdev. cbn [SceneViewer.with_call SceneViewer.graph
      SceneViewer.wsi_device]. rewrite fmap_cons. cbn [mjoin list_join].
    rewrite <- app_assoc. reflexivity.
Qed.

(** C7: a frame makes exactly two calls on the graph, [setup_attachments]
    with the device and that device's swap-chain view and then
    [enqueue_render_passes] on the same device; the frame loop makes this pair
    once per frame. *)
Theorem frame_sets_up_attachments_before_enqueue
    (app : SceneViewer.SceneViewerApplication)
    (frame_time elapsed_time : float64) (frames : list (float64 * float64)) :
  graph_calls (SceneViewer.graph (SceneViewer.render_frame app frame_time elapsed_time))
  = graph_calls (SceneViewer.graph app)
    ++ [ setup_attachments (SceneViewer.wsi_device app)
           (get_swapchain_view (SceneViewer.wsi_device app));
         enqueue_render_passes (SceneViewer.wsi_device app) ]
  /\ graph_calls (SceneViewer.graph (fst (SceneViewer.run frames app)))
     = graph_calls (SceneViewer.graph app)
       ++ mjoin ((fun _ =>
                    [ setup_attachments (SceneViewer.wsi_device app)
                        (get_swapchain_view (SceneViewer.wsi_device app));
                      enqueue_render_passes (SceneViewer.wsi_device app) ])
                   <$> frames).
Proof.
  split.
  - apply render_frame_graph_calls.
  - apply run_loop_graph_calls.
Qed.

(** ** The variant holder *)

(** C10: [get<T>] after [set<T>(t)] gives [t], also through the converting
    constructor; on a default-constructed variant the holder pointer is null
    and [get] has no defined result, as it has none at a type other than the
    stored one. *)
Theorem variant_set_get {ty : Type} `{EqDecision ty} (value_of : ty -> Type)
    (T U : ty) (t : value_of T) (v : Variant.Variant value_of) :
  Variant.get value_of T (Variant.set value_of T t v) = Some t
  /\ Variant.get value_of T (Variant.Variant_of value_of T t) = Some t
  /\ Variant.get value_of T (Variant.Variant_default value_of) = None
  /\ (T <> U -> Variant.get value_of U (Variant.set value_of T t v) = None).
Proof.
  assert (forall w, Variant.get value_of T (Variant.set value_of T t w) = Some t) as Hrt.
  { intros w. unfold Variant.get, Variant.set. simpl.
    destruct (decide (T = T)) as [e|Hne]; [|congruence].
    assert (e = eq_refl) as -> by apply proof_irrel. reflexivity. }
  split; [apply Hrt|]. split; [apply Hrt|]. split; [reflexivity|].
  intros Hne. unfold Variant.get, Variant.set. simpl.
  destruct (decide (T = U)) as [e|_]; [congruence | reflexivity].
Qed.

(** An [int] put into a variant that held a string comes back. *)
Lemma variant_set_get_witness :
  Variant.get Example.cpp_value Example.cpp_int
    (Variant.set Example.cpp_value Example.cpp_int 42
       (Variant.Variant_of Example.cpp_value Example.cpp_string "old"%string))
  = Some 42.
Proof.
  exact (proj1 (variant_set_get Example.cpp_value Example.cpp_int
                  Example.cpp_string 42 _)).
Defined.

(** ** The scheduler *)

Section SchedulerFacts.

Local Open Scope nat_scope.

Variable dep : nat -> nat -> bool.
Variable n : nat.






Let all_picked := Bake.all_picked dep n.









End SchedulerFacts.








(** * Further properties *)

(** ** The recording of the downsample *)

Lemma seqZ_succ (i : Z) (todo : nat) :
  seqZ i (Z.of_nat (S todo)) = i :: seqZ (i + 1) (Z.of_nat todo).
Proof. rewrite seqZ_cons by lia. f_equal. f_equal; lia. Qed.

Lemma bind_output_mips_eq (info : SPD.SPDInfo) (todo : nat) :
  forall (i : Z) (cmd : CommandBuffer),
    SPD.bind_output_mips todo i info cmd
    = app cmd <$> Recorded.slot_bindings info i todo.
Proof.
  unfold Recorded.slot_bindings.
  induction todo as [|todo IH]; intros i cmd.
  - simpl. rewrite app_nil_r. reflexivity.
  - rewrite seqZ_succ. cbn [SPD.bind_output_mips mapM].
    destruct (SPD.read_mip info (SPD.mip_index (SPD.num_mips info) i)) as [v|];
      [|reflexivity].
    cbn [mbind option_bind]. rewrite IH.
    match goal with
    | |- context [mapM ?f ?l] => destruct (mapM f l) as [slots|]
    end; [|reflexivity].
    simpl. rewrite <- app_assoc. reflexivity.
Qed.

Lemma emit_shape (MaxSPDMips : Z) (cmd cmd' : CommandBuffer) (info : SPD.SPDInfo) :
  SPD.emit_single_pass_downsample MaxSPDMips cmd info = Some cmd'
  <-> exists inp cb slots mip0,
        SPD.input info = Some inp
        /\ SPD.counter_buffer info = Some cb
        /\ Recorded.slot_bindings info 0 (Z.to_nat MaxSPDMips) = Some slots
        /\ (forall data, SPD.filter_mod info = Some data ->
              SPD.num_mips info <= Z.of_nat (length data))
        /\ SPD.read_mip info 0 = Some mip0
        /\ cmd' = cmd ++ Recorded.head_commands info inp cb ++ slots
                      ++ Recorded.upload_commands info
                      ++ Recorded.dispatch_commands info inp mip0.
Proof.
  unfold SPD.emit_single_pass_downsample, Recorded.upload_commands,
    Recorded.head_commands, Recorded.dispatch_commands.
  destruct (SPD.input info) as [inp|]; cbn [mbind option_bind];
    [|split; [discriminate | intros (? & ? & ? & ? & ? & _); discriminate]].
  destruct (SPD.counter_buffer info) as [cb|]; cbn [mbind option_bind];
    [|split; [discriminate | intros (? & ? & ? & ? & _ & ? & _); discriminate]].
  rewrite bind_output_mips_eq.
  destruct (Recorded.slot_bindings info 0 (Z.to_nat MaxSPDMips)) as [slots|];
    cbn [fmap option_fmap option_map mbind option_bind];
    [|split; [discriminate | intros (? & ? & ? & ? & _ & _ & ? & _); discriminate]].
  destruct (SPD.filter_mod info) as [data|].
  - destruct (Z.leb_spec (SPD.num_mips info) (Z.of_nat (length data))) as [Hle|Hgt];
      cbn [mbind option_bind].
    + destruct (SPD.read_mip info 0) as [mip0|]; cbn [mbind option_bind].
      * split.
        -- intros Heq. injection Heq as <-. exists inp, cb, slots, mip0.
           repeat split; try reflexivity.
           ++ intros data' Hd. injection Hd as <-. exact Hle.
           ++ destruct (SPD.z_transform info); simpl; rewrite <- !app_assoc;
                reflexivity.
        -- intros (inp' & cb' & slots' & mip0' & Hi & Hc & Hs & _ & Hm & ->).
           injection Hi as <-. injection Hc as <-. injection Hs as <-.
           injection Hm as <-.
           destruct (SPD.z_transform info); simpl; rewrite <- !app_assoc;
             reflexivity.
      * split; [discriminate|].
        intros (? & ? & ? & ? & _ & _ & _ & _ & ? & _). discriminate.
    + split; [discriminate|].
      intros (? & ? & ? & ? & _ & _ & _ & Hf & _). specialize (Hf data eq_refl). lia.
  - cbn [mbind option_bind].
    destruct (SPD.read_mip info 0) as [mip0|]; cbn [mbind option_bind].
    + split.
      * intros Heq. injection Heq as <-. exists inp, cb, slots, mip0.
        repeat split; try reflexivity; try discriminate.
        destruct (SPD.z_transform info); simpl; rewrite <- !app_assoc;
          reflexivity.
      * intros (inp' & cb' & slots' & mip0' & Hi & Hc & Hs & _ & Hm & ->).
        injection Hi as <-. injection Hc as <-. injection Hs as <-.
        injection Hm as <-.
        destruct (SPD.z_transform info); simpl; rewrite <- !app_assoc;
          reflexivity.
    + split; [discriminate|].
      intros (? & ? & ? & ? & _ & _ & _ & _ & ? & _). discriminate.
Qed.

Lemma slot_bindings_length (info : SPD.SPDInfo) (i : Z) (todo : nat)
    (slots : list Command) :
  Recorded.slot_bindings info i todo = Some slots -> length slots = todo.
Proof.
  intros Hs. apply length_mapM in Hs. rewrite length_seqZ in Hs. lia.
Qed.

Lemma slot_bindings_slots (info : SPD.SPDInfo) (todo : nat) :
  forall (i : Z) (slots : list Command),
    Recorded.slot_bindings info i todo = Some slots ->
    Recorded.storage_texture_slots slots
    = (fun k => (0, wrap32 (2 + k))) <$> seqZ i (Z.of_nat todo).
Proof.
  unfold Recorded.slot_bindings, Recorded.storage_texture_slots.
  induction todo as [|todo IH]; intros i slots Hs.
  - simpl in Hs. injection Hs as <-. reflexivity.
  - rewrite seqZ_succ in *. cbn [mapM] in Hs.
    destruct (SPD.read_mip info (SPD.mip_index (SPD.num_mips info) i)) as [v|];
      [|discriminate].
    cbn [mbind option_bind] in Hs.
    match type of Hs with
    | context [mapM ?f ?l] => destruct (mapM f l) as [rest|] eqn:Hrest
    end; [|discriminate].
    injection Hs as <-. rewrite fmap_cons.
    change (omap ?f (?x :: ?l)) with
      (match f x with Some y => y :: omap f l | None => omap f l end).
    cbv beta iota. f_equal. apply (IH _ _ Hrest).
Qed.

Lemma slot_bindings_elem (info : SPD.SPDInfo) (i : Z) (todo : nat)
    (slots : list Command) (c : Command) :
  Recorded.slot_bindings info i todo = Some slots -> c ∈ slots ->
  exists s b v, c = set_storage_texture s b v.
Proof.
  intros Hs Hc. apply mapM_Some_1 in Hs.
  apply list_elem_of_lookup in Hc as [j Hj].
  destruct (Forall2_lookup_r _ _ _ _ _ Hs Hj) as (k & _ & Hk).
  destruct (SPD.read_mip info (SPD.mip_index (SPD.num_mips info) k)) as [v|];
    [|discriminate].
  injection Hk as <-. eauto.
Qed.

Lemma emit_frame (MaxSPDMips : Z) (cmd : CommandBuffer) (info : SPD.SPDInfo) :
  SPD.emit_single_pass_downsample MaxSPDMips cmd info
  = app cmd <$> SPD.emit_single_pass_downsample MaxSPDMips [] info.
Proof.
  destruct (SPD.emit_single_pass_downsample MaxSPDMips [] info) as [added|] eqn:He.
  - apply emit_shape in He
      as (inp & cb & slots & mip0 & Hi & Hc & Hs & Hf & Hm & ->).
    simpl. apply emit_shape. exists inp, cb, slots, mip0.
    repeat split; assumption.
  - destruct (SPD.emit_single_pass_downsample MaxSPDMips cmd info) as [cmd'|] eqn:He';
      [|reflexivity].
    apply emit_shape in He'
      as (inp & cb & slots & mip0 & Hi & Hc & Hs & Hf & Hm & _).
    assert (SPD.emit_single_pass_downsample MaxSPDMips [] info
            = Some ([] ++ Recorded.head_commands info inp cb ++ slots
                       ++ Recorded.upload_commands info
                       ++ Recorded.dispatch_commands info inp mip0)) as Hsome.
    { apply emit_shape. exists inp, cb, slots, mip0. repeat split; assumption. }
    congruence.
Qed.

Lemma emit_added_length (MaxSPDMips : Z) (added : CommandBuffer) (info : SPD.SPDInfo) :
  SPD.emit_single_pass_downsample MaxSPDMips [] info = Some added ->
  length added
  = (Z.to_nat MaxSPDMips + 8
     + (if SPD.is_set (SPD.filter_mod info) then 1 else 0)
     + (if SPD.is_set (SPD.z_transform info) then 1 else 0))%nat.
Proof.
  intros He.
  apply emit_shape in He as (inp & cb & slots & mip0 & _ & _ & Hs & _ & _ & ->).
  apply slot_bindings_length in Hs.
  rewrite !length_app, Hs. unfold Recorded.upload_commands.
  destruct (SPD.filter_mod info), (SPD.z_transform info); simpl; lia.
Qed.

(** X1: the downsample only appends to the command buffer.  What it appends
    does not depend on what was recorded before, and is [MaxSPDMips] slot
    bindings plus eight commands, plus one per constant-data upload. *)
Theorem emit_single_pass_downsample_appends
    (MaxSPDMips : Z) (cmd : CommandBuffer) (info : SPD.SPDInfo) :
  SPD.emit_single_pass_downsample MaxSPDMips cmd info
  = app cmd <$> SPD.emit_single_pass_downsample MaxSPDMips [] info
  /\ (forall added,
        SPD.emit_single_pass_downsample MaxSPDMips [] info = Some added ->
        length added
        = (Z.to_nat MaxSPDMips + 8
           + (if SPD.is_set (SPD.filter_mod info) then 1 else 0)
           + (if SPD.is_set (SPD.z_transform info) then 1 else 0))%nat).
Proof.
  split; [apply emit_frame | intros added; apply emit_added_length].
Qed.

(** X2: the storage-texture bindings the downsample records are bindings 2,
    3, ..., [MaxSPDMips + 1] of set 0, each once and in this order; bindings
    0 and 1, which hold the input and the counter, are never rebound. *)
Theorem emit_single_pass_downsample_slot_numbers
    (MaxSPDMips : Z) (cmd cmd' : CommandBuffer) (info : SPD.SPDInfo) :
  0 <= MaxSPDMips <= u32_mod - 2 ->
  SPD.emit_single_pass_downsample MaxSPDMips cmd info = Some cmd' ->
  Recorded.storage_texture_slots cmd'
  = Recorded.storage_texture_slots cmd
    ++ ((fun i => (0, 2 + i)) <$> seqZ 0 MaxSPDMips).
Proof.
  intros HM He.
  apply emit_shape in He as (inp & cb & slots & mip0 & _ & _ & Hs & _ & _ & ->).
  unfold Recorded.storage_texture_slots. rewrite !omap_app.
  fold (Recorded.storage_texture_slots slots).
  rewrite (slot_bindings_slots _ _ _ _ Hs), Z2Nat.id by lia.
  assert (omap (fun c => match c with
                         | set_storage_texture s b _ => Some (s, b)
                         | _ => None
                         end) (Recorded.upload_commands info) = []) as ->.
  { unfold Recorded.upload_commands.
    destruct (SPD.filter_mod info), (SPD.z_transform info); reflexivity. }
  cbn [Recorded.head_commands Recorded.dispatch_commands omap app].
  rewrite app_nil_r. f_equal.
  apply Forall_fmap_ext, Forall_forall. intros k Hk.
  apply elem_of_seqZ in Hk. f_equal. apply wrap32_small.
  unfold is_u32. lia.
Qed.

(** The twelve slots of the two-level example. *)
Lemma emit_single_pass_downsample_slot_numbers_witness :
  exists cmd',
    SPD.emit_single_pass_downsample Example.MaxSPDMips [] Example.spd_info = Some cmd'
    /\ Recorded.storage_texture_slots cmd'
       = (fun i => (0, 2 + i)) <$> seqZ 0 Example.MaxSPDMips.
Proof.
  eexists. split; [reflexivity|].
  apply (emit_single_pass_downsample_slot_numbers Example.MaxSPDMips [] _
           Example.spd_info).
  - unfold Example.MaxSPDMips, u32_mod. lia.
  - reflexivity.
Defined.

Lemma workgroups_cover (w : Z) :
  (0 <= w <= u32_mod - 32 ->
   32 * (wrap32 (w + 31) / 32) - 31 <= w <= 32 * (wrap32 (w + 31) / 32))
  /\ (u32_mod - 32 < w < u32_mod -> wrap32 (w + 31) / 32 = 0).
Proof.
  unfold wrap32, u32_mod. split; intros Hw.
  - rewrite Z.mod_small by lia.
    pose proof (Z.div_mod (w + 31) 32 ltac:(lia)) as Hdm.
    pose proof (Z.mod_pos_bound (w + 31) 32 ltac:(lia)). lia.
  - replace (w + 31) with ((w + 31 - 2 ^ 32) + 1 * 2 ^ 32) by lia.
    rewrite Z.mod_add by lia. rewrite Z.mod_small by lia.
    apply Z.div_small. lia.
Qed.

(** X3: the downsample ends with the push constants and one dispatch that is
    bracketed by switching subgroup size control on and off; nothing recorded
    before them in the same call touches that state.  The dispatch has
    ceil(w/32) by ceil(h/32) by 1 groups for the extent w x h of mip 0 as
    long as the extent is at most 2^32 - 32; above that the rounding addition
    wraps and the group count is 0. *)
Theorem emit_single_pass_downsample_dispatch
    (MaxSPDMips : Z) (cmd cmd' : CommandBuffer) (info : SPD.SPDInfo) :
  SPD.emit_single_pass_downsample MaxSPDMips cmd info = Some cmd' ->
  exists mip0 front push wg_x wg_y,
    SPD.read_mip info 0 = Some mip0
    /\ cmd' = cmd ++ front
                  ++ [ push_constants push;
                       enable_subgroup_size_control true;
                       set_subgroup_size_log2 true 2 7;
                       dispatch wg_x wg_y 1;
                       enable_subgroup_size_control false ]
    /\ (forall c, c ∈ front -> Recorded.is_dispatch_control c = false)
    /\ base_image_resolution push = (get_view_width mip0, get_view_height mip0)
    /\ mips push = SPD.num_mips info
    /\ num_workgroups push = wrap32 (wg_x * wg_y)
    /\ (0 <= get_view_width mip0 <= u32_mod - 32 ->
        32 * wg_x - 31 <= get_view_width mip0 <= 32 * wg_x)
    /\ (0 <= get_view_height mip0 <= u32_mod - 32 ->
        32 * wg_y - 31 <= get_view_height mip0 <= 32 * wg_y)
    /\ (u32_mod - 32 < get_view_width mip0 < u32_mod -> wg_x = 0)
    /\ (u32_mod - 32 < get_view_height mip0 < u32_mod -> wg_y = 0).
Proof.
  intros He.
  apply emit_shape in He as (inp & cb & slots & mip0 & _ & _ & Hs & _ & Hm & ->).
  exists mip0, (Recorded.head_commands info inp cb ++ slots
                ++ Recorded.upload_commands info).
  eexists _, _, _. split; [exact Hm|].
  split; [unfold Recorded.dispatch_commands; rewrite <- !app_assoc; reflexivity|].
  split.
  { intros c Hc. rewrite !elem_of_app in Hc. destruct Hc as [Hc|[Hc|Hc]].
    - unfold Recorded.head_commands in Hc.
      repeat (apply elem_of_cons in Hc as [->|Hc]; [reflexivity|]).
      inversion Hc.
    - destruct (slot_bindings_elem _ _ _ _ _ Hs Hc) as (s & b & v & ->).
      reflexivity.
    - unfold Recorded.upload_commands in Hc.
      destruct (SPD.filter_mod info), (SPD.z_transform info); simpl in Hc;
        repeat (apply elem_of_cons in Hc as [->|Hc]; [reflexivity|]);
        inversion Hc. }
  cbn [base_image_resolution mips num_workgroups].
  repeat split; try apply workgroups_cover; assumption.
Qed.

(** A 513x300 base mip is covered by 17 x 10 groups. *)
Lemma emit_single_pass_downsample_dispatch_witness :
  exists cmd',
    SPD.emit_single_pass_downsample Example.MaxSPDMips [] Example.spd_info = Some cmd'
    /\ dispatch 17 10 1 ∈ cmd'.
Proof.
  eexists. split; [reflexivity|].
  destruct (emit_single_pass_downsample_dispatch Example.MaxSPDMips [] _
              Example.spd_info eq_refl)
    as (mip0 & front & push & wg_x & wg_y & Hm & Heq & _ & _ & _ & _ & Hx & Hy & _).
  assert (get_view_width mip0 = 513 /\ get_view_height mip0 = 300) as [Hw Hh]
    by (vm_compute in Hm; injection Hm as <-; split; reflexivity).
  rewrite Hw in Hx. rewrite Hh in Hy. unfold u32_mod in Hx, Hy.
  specialize (Hx ltac:(lia)). specialize (Hy ltac:(lia)).
  assert (wg_x = 17) as -> by lia. assert (wg_y = 10) as -> by lia.
  rewrite Heq. rewrite !elem_of_app. right. right.
  do 3 (apply elem_of_cons; right). apply elem_of_cons. left. reflexivity.
Defined.



Lemma slot_bindings_defined (info : SPD.SPDInfo) (MaxSPDMips : Z) :
  is_Some (Recorded.slot_bindings info 0 (Z.to_nat MaxSPDMips))
  <-> forall i, 0 <= i < MaxSPDMips ->
        is_Some (SPD.read_mip info (SPD.mip_index (SPD.num_mips info) i)).
Proof.
  unfold Recorded.slot_bindings. rewrite mapM_is_Some, Forall_forall.
  split.
  - intros Hall i Hi. specialize (Hall i). simpl in Hall.
    destruct (SPD.read_mip info (SPD.mip_index (SPD.num_mips info) i)) as [v|].
    + eexists. reflexivity.
    + destruct Hall as [? Hx]; [apply elem_of_seqZ; lia | discriminate Hx].
  - intros Hall i Hi. apply elem_of_seqZ in Hi. simpl.
    destruct (Hall i ltac:(lia)) as [v ->]. eexists. reflexivity.
Qed.

(** X5: the downsample has a defined result exactly when the input and the
    counter buffer are not null, every slot index min(i, num_mips - 1) for
    [i] below [MaxSPDMips] and index 0 designate a written array slot, and
    [filter_mod], when set, holds at least [num_mips] elements. *)
Theorem emit_single_pass_downsample_defined_iff
    (MaxSPDMips : Z) (cmd : CommandBuffer) (info : SPD.SPDInfo) :
  is_Some (SPD.emit_single_pass_downsample MaxSPDMips cmd info)
  <-> is_Some (SPD.input info)
      /\ is_Some (SPD.counter_buffer info)
      /\ (forall i, 0 <= i < MaxSPDMips ->
            is_Some (SPD.read_mip info (SPD.mip_index (SPD.num_mips info) i)))
      /\ (forall data, SPD.filter_mod info = Some data ->
            SPD.num_mips info <= Z.of_nat (length data))
      /\ is_Some (SPD.read_mip info 0).
Proof.
  rewrite <- slot_bindings_defined. split.
  - intros [cmd' He].
    apply emit_shape in He as (inp & cb & slots & mip0 & Hi & Hc & Hs & Hf & Hm & _).
    rewrite Hi, Hc, Hs, Hm.
    split; [eexists; reflexivity|]. split; [eexists; reflexivity|].
    split; [eexists; reflexivity|]. split; [exact Hf|]. eexists; reflexivity.
  - intros ([inp Hi] & [cb Hc] & [slots Hs] & Hf & [mip0 Hm]).
    eexists. apply emit_shape. exists inp, cb, slots, mip0.
    split; [exact Hi|]. split; [exact Hc|]. split; [exact Hs|].
    split; [exact Hf|]. split; [exact Hm|]. reflexivity.
Qed.

(** ** The build callback of the depth hierarchy *)

Section BuildCallback.

Variable MaxSPDMips : Z.
Variable graph : RenderGraph.
Variable context : RenderContext.

Let inv_zw : mat2 :=
  (vec4_zw (mat4_col (inv_projection (get_render_parameters context)) 2),
   vec4_zw (mat4_col (inv_projection (get_render_parameters context)) 3)).



End BuildCallback.

(** X6: on the state that [setup_depth_hierarchy_pass] captured, the
    callback has no defined result when the physical output image has more
    than [MaxSPDMips] levels (the assertion fails and the view-pointer array
    would overflow), nor when it has no level at all (no view is created and
    slot 0 of the array is read unwritten). *)
Theorem build_render_pass_undefined
    (MaxSPDMips : Z) (declared graph : RenderGraph) (context : RenderContext)
    (input output : string) (dev : Device) (cmd : CommandBuffer) (n : Z) :
  img_levels (get_create_info (get_image (get_physical_texture_resource graph output)))
  = n ->
  MaxSPDMips < n \/ (n = 0 /\ 0 < MaxSPDMips) ->
  SPD.build_render_pass MaxSPDMips graph context
    (snd (SPD.setup_depth_hierarchy_pass MaxSPDMips declared context input output))
    dev cmd
  = None.
Proof.
  intros Hn Hcase. unfold SPD.build_render_pass.
  cbn [snd SPD.setup_depth_hierarchy_pass SPD.views SPD.otex]. rewrite Hn.
  destruct Hcase as [Hgt|[-> Hpos]].
  - destruct (Z.leb_spec n MaxSPDMips); [lia | reflexivity].
  - destruct (Z.leb_spec 0 MaxSPDMips); [|lia].
    change (Z.to_nat 0) with 0%nat.
    cbn [SPD.create_mip_views mbind option_bind]. cbv beta iota zeta.
    match goal with
    | |- context [SPD.emit_single_pass_downsample MaxSPDMips cmd ?i] =>
        destruct (SPD.emit_single_pass_downsample MaxSPDMips cmd i) as [c|] eqn:He
    end; [|reflexivity].
    exfalso. apply emit_shape in He as (_ & _ & _ & mip0 & _ & _ & _ & _ & Hm & _).
    unfold SPD.read_mip in Hm. cbn in Hm.
    destruct (Z.to_nat MaxSPDMips) as [|k] eqn:Hk; [lia|]. discriminate Hm.
Qed.

(** A nine-level image with room for eight views only. *)
Lemma build_render_pass_undefined_witness :
  SPD.build_render_pass 8 Example.graph Example.context
    (snd (SPD.setup_depth_hierarchy_pass 8 Example.graph Example.context
            "depth" "hiz"))
    Example.device []
  = None.
Proof.
  apply (build_render_pass_undefined 8 Example.graph Example.graph Example.context
           "depth" "hiz" Example.device [] 9 eq_refl).
  left. lia.
Defined.

(** X7: once the cache holds views, the callback never rebuilds them, not
    even when it is run against a graph whose physical output image is
    another one: the views stay those of the image seen first, and the
    device creates nothing. *)
Theorem depth_hierarchy_views_never_rebuilt
    (MaxSPDMips : Z) (declared graph : RenderGraph) (context : RenderContext)
    (input output : string) (dev : Device) (cmd : CommandBuffer)
    (image : Image) (n : Z) :
  is_u32 MaxSPDMips ->
  get_image (get_physical_texture_resource graph output) = image ->
  img_levels (get_create_info image) = n ->
  1 <= n <= MaxSPDMips ->
  exists h1 dev1 cmd1,
    SPD.build_render_pass MaxSPDMips graph context
      (snd (SPD.setup_depth_hierarchy_pass MaxSPDMips declared context input output))
      dev cmd
    = Some (h1, dev1, cmd1)
    /\ forall (graph' : RenderGraph) (context' : RenderContext)
              (frames : list CommandBuffer),
         exists h2,
           SPD.run_frames MaxSPDMips graph' context' frames h1 dev1 = Some (h2, dev1)
           /\ SPD.views h2 = SPD.views h1
           /\ Forall (fun v => get_image v = image) (SPD.views h2).
Proof.
  intros HM Himg Hn Hrange.
  destruct (build_render_pass_first MaxSPDMips graph context HM
              (snd (SPD.setup_depth_hierarchy_pass MaxSPDMips declared context
                      input output))
              dev cmd image n)
    as (h1 & dev1 & cmd1 & Hb & Hc & _);
    [reflexivity | apply length_replicate | reflexivity | exact Himg
     | exact Hn | exact Hrange |].
  exists h1, dev1, cmd1. split; [exact Hb|].
  intros graph' context' frames.
  destruct (run_frames_cached MaxSPDMips graph' context' HM frames h1 dev1 dev
              image n Hc Hrange) as (h2 & Hr & Hv).
  exists h2. split; [exact Hr|]. split; [exact Hv|].
  rewrite Hv. destruct Hc as (-> & _). apply Forall_fmap, Forall_forall.
  intros k _. reflexivity.
Qed.

(** Views of the 513x300 image survive frames run against the 1024x1024
    graph. *)
Lemma depth_hierarchy_views_never_rebuilt_witness :
  exists h1 dev1 cmd1 h2,
    SPD.build_render_pass Example.MaxSPDMips Example.graph Example.context
      (snd (SPD.setup_depth_hierarchy_pass Example.MaxSPDMips Example.graph
              Example.context "depth" "hiz"))
      Example.device []
    = Some (h1, dev1, cmd1)
    /\ SPD.run_frames Example.MaxSPDMips Example.other_graph Example.context
         [[]; []] h1 dev1
       = Some (h2, dev1)
    /\ Forall (fun v => get_image v = Example.depth_image) (SPD.views h2).
Proof.
  destruct (depth_hierarchy_views_never_rebuilt Example.MaxSPDMips Example.graph
              Example.graph Example.context "depth" "hiz" Example.device []
              Example.depth_image 9)
    as (h1 & dev1 & cmd1 & Hb & Hlater).
  - unfold is_u32, u32_mod, Example.MaxSPDMips. lia.
  - reflexivity.
  - reflexivity.
  - unfold Example.MaxSPDMips. lia.
  - destruct (Hlater Example.other_graph Example.context [[]; []])
      as (h2 & Hr & _ & Himg).
    exists h1, dev1, cmd1, h2. split; [exact Hb|]. split; [exact Hr | exact Himg].
Defined.



(** ** The level count, against a bound *)

(** X9: the level count that [setup_depth_hierarchy_pass] declares for an
    input of extent [w] x [h] is between 1 and 32, and it is at most [k]
    exactly when min(w,h) is below 2^k.  When the physical output image of
    the graph the callback runs against has the declared number of levels,
    the first invocation of the callback is defined exactly when min(w,h) is
    below 2^MaxSPDMips. *)
Theorem setup_depth_hierarchy_pass_level_bounds
    (MaxSPDMips : Z) (graph baked : RenderGraph) (context : RenderContext)
    (input output : string) (w h : Z) (dev : Device) (cmd : CommandBuffer) :
  width (get_resource_dimensions graph input) = w ->
  height (get_resource_dimensions graph input) = h ->
  1 <= w < u32_mod -> 1 <= h < u32_mod ->
  is_u32 MaxSPDMips ->
  exists L,
    Recorded.storage_texture_levels
      (graph_calls (fst (SPD.setup_depth_hierarchy_pass MaxSPDMips graph context
                           input output)))
    = Recorded.storage_texture_levels (graph_calls graph) ++ [(output, L)]
    /\ 1 <= L <= 32
    /\ (forall k, 0 <= k -> (L <= k <-> Z.min w h < 2 ^ k))
    /\ (img_levels (get_create_info
                      (get_image (get_physical_texture_resource baked output))) = L ->
        (is_Some (SPD.build_render_pass MaxSPDMips baked context
                    (snd (SPD.setup_depth_hierarchy_pass MaxSPDMips graph context
                            input output))
                    dev cmd)
         <-> Z.min w h < 2 ^ MaxSPDMips)).
Proof.
  intros Hw Hh Bw Bh HM. exists (Z.log2 (Z.min w h) + 1).
  assert (0 < Z.min w h < u32_mod) as Bm by lia.
  assert (1 <= Z.log2 (Z.min w h) + 1 <= 32) as HL.
  { pose proof (Z.log2_nonneg (Z.min w h)).
    assert (Z.log2 (Z.min w h) < 32)
      by (apply Z.log2_lt_pow2; unfold u32_mod in Bm; lia).
    lia. }
  assert (forall k, 0 <= k ->
            (Z.log2 (Z.min w h) + 1 <= k <-> Z.min w h < 2 ^ k)) as Hk.
  { intros k Hk. rewrite (Z.log2_lt_pow2 (Z.min w h) k) by lia. lia. }
  split; [|split; [exact HL|split; [exact Hk|]]].
  - unfold SPD.setup_depth_hierarchy_pass, graph_call, Recorded.storage_texture_levels.
    cbn [fst graph_calls get_resource_dimensions]. rewrite Hw, Hh.
    unfold Util.floor_log2. rewrite (wrap32_small _ (levels_fit _ Bm)).
    rewrite <- !app_assoc, omap_app. reflexivity.
  - intros Hlevels. rewrite <- (Hk MaxSPDMips) by (unfold is_u32 in HM; lia).
    split.
    + intros [r Hr].
      destruct (Z.le_gt_cases (Z.log2 (Z.min w h) + 1) MaxSPDMips) as [Hle|Hgt];
        [exact Hle|].
      exfalso. unfold SPD.build_render_pass in Hr.
      cbn [snd SPD.setup_depth_hierarchy_pass SPD.views SPD.otex] in Hr.
      rewrite Hlevels in Hr.
      destruct (Z.leb_spec (Z.log2 (Z.min w h) + 1) MaxSPDMips); [lia|].
      discriminate Hr.
    + intros Hle.
      destruct (build_render_pass_first MaxSPDMips baked context HM
                  (snd (SPD.setup_depth_hierarchy_pass MaxSPDMips graph context
                          input output))
                  dev cmd
                  (get_image (get_physical_texture_resource baked output))
                  (Z.log2 (Z.min w h) + 1))
        as (h1 & dev1 & cmd1 & Hb & _);
        [reflexivity | apply length_replicate | reflexivity | reflexivity
         | exact Hlevels | lia |].
      rewrite Hb. eexists. reflexivity.
Qed.

(** 513x300 with a nine-level image: the callback is defined with room for
    12 views and undefined with room for 8. *)
Lemma setup_depth_hierarchy_pass_level_bounds_witness :
  is_Some (SPD.build_render_pass 12 Example.graph Example.context
             (snd (SPD.setup_depth_hierarchy_pass 12 Example.graph
                     Example.context "depth" "hiz"))
             Example.device [])
  /\ ~ is_Some (SPD.build_render_pass 8 Example.graph Example.context
                  (snd (SPD.setup_depth_hierarchy_pass 8 Example.graph
                          Example.context "depth" "hiz"))
                  Example.device []).
Proof.
  split.
  - destruct (setup_depth_hierarchy_pass_level_bounds 12 Example.graph
                Example.graph Example.context "depth" "hiz" 513 300
                Example.device [] eq_refl eq_refl
                ltac:(unfold u32_mod; lia) ltac:(unfold u32_mod; lia)
                ltac:(unfold is_u32, u32_mod; lia))
      as (L & Hcalls & _ & _ & Hdef).
    injection Hcalls as <-. apply Hdef; reflexivity.
  - destruct (setup_depth_hierarchy_pass_level_bounds 8 Example.graph
                Example.graph Example.context "depth" "hiz" 513 300
                Example.device [] eq_refl eq_refl
                ltac:(unfold u32_mod; lia) ltac:(unfold u32_mod; lia)
                ltac:(unfold is_u32, u32_mod; lia))
      as (L & Hcalls & _ & _ & Hdef).
    injection Hcalls as <-. intros Hsome. apply Hdef in Hsome; [|reflexivity].
    revert Hsome. vm_compute. discriminate.
Defined.

(** ** The graph calls of the scene viewer over time *)

Lemma reset_before_bake_app (cs1 cs2 : list GraphCall) :
  forall fresh,
    Recorded.reset_before_bake fresh (cs1 ++ cs2)
    = Recorded.reset_before_bake fresh cs1
      && Recorded.reset_before_bake (Recorded.fresh_after fresh cs1) cs2.
Proof.
  induction cs1 as [|c cs1 IH]; intros fresh; [reflexivity|].
  destruct c; simpl; rewrite ?IH; try reflexivity.
  rewrite andb_assoc. reflexivity.
Qed.

Lemma fresh_after_app (cs1 cs2 : list GraphCall) :
  forall fresh,
    Recorded.fresh_after fresh (cs1 ++ cs2)
    = Recorded.fresh_after (Recorded.fresh_after fresh cs1) cs2.
Proof.
  induction cs1 as [|c cs1 IH]; intros fresh; [reflexivity|].
  destruct c; simpl; rewrite ?IH; reflexivity.
Qed.

Lemma count_app (p : GraphCall -> bool) (cs1 cs2 : list GraphCall) :
  Recorded.count p (cs1 ++ cs2) = (Recorded.count p cs1 + Recorded.count p cs2)%nat.
Proof. unfold Recorded.count. rewrite List.filter_app, length_app. reflexivity. Qed.

(** What one entry point adds to the calls of the graph. *)
Lemma step_graph_calls (env : gmap string string)
    (app : SceneViewer.SceneViewerApplication) (s : Driver.Step) :
  exists added,
    graph_calls (SceneViewer.graph (Driver.step env app s))
    = graph_calls (SceneViewer.graph app) ++ added
    /\ SceneViewer.wsi_device (Driver.step env app s) = SceneViewer.wsi_device app
    /\ (forall fresh, Recorded.reset_before_bake fresh added = true)
    /\ (forall fresh,
          Recorded.fresh_after fresh added
          = if Driver.is_change s then false else fresh)
    /\ Recorded.count Recorded.is_reset added
       = (if Driver.is_change s then 1 else 0)%nat
    /\ Recorded.count Recorded.is_bake added
       = (if Driver.is_change s then 1 else 0)%nat
    /\ Recorded.count Recorded.is_enqueue added
       = (if Driver.is_frame s then 1 else 0)%nat.
Proof.
  destruct s as [swap| |frame_time elapsed_time].
  - eexists. split; [apply on_swapchain_changed_calls|].
    split; [reflexivity|]. repeat split; reflexivity.
  - exists []. simpl. rewrite app_nil_r. repeat split; reflexivity.
  - eexists. split; [apply render_frame_graph_calls|].
    split; [apply render_frame_graph_calls|]. repeat split; reflexivity.
Qed.

(** X10: whatever the order in which the platform delivers swap-chain
    changes, swap-chain destructions and frames to a scene viewer whose graph
    was never used, every [bake] the graph receives has a [reset] after the
    [bake] before it; the graph is reset and baked once per swap-chain change,
    passes are enqueued once per frame, and the device of the window system
    stays the same. *)
Theorem drive_resets_before_every_bake (env : gmap string string)
    (app : SceneViewer.SceneViewerApplication) (steps : list Driver.Step) :
  graph_calls (SceneViewer.graph app) = [] ->
  Recorded.reset_before_bake false
    (graph_calls (SceneViewer.graph (Driver.drive env app steps))) = true
  /\ Recorded.count Recorded.is_reset
       (graph_calls (SceneViewer.graph (Driver.drive env app steps)))
     = length (List.filter Driver.is_change steps)
  /\ Recorded.count Recorded.is_bake
       (graph_calls (SceneViewer.graph (Driver.drive env app steps)))
     = length (List.filter Driver.is_change steps)
  /\ Recorded.count Recorded.is_enqueue
       (graph_calls (SceneViewer.graph (Driver.drive env app steps)))
     = length (List.filter Driver.is_frame steps)
  /\ SceneViewer.wsi_device (Driver.drive env app steps) = SceneViewer.wsi_device app.
Proof.
  intros Hempty.
  assert (forall steps app,
            exists added,
              graph_calls (SceneViewer.graph (Driver.drive env app steps))
              = graph_calls (SceneViewer.graph app) ++ added
              /\ (forall fresh, Recorded.reset_before_bake fresh added = true)
              /\ Recorded.count Recorded.is_reset added
                 = length (List.filter Driver.is_change steps)
              /\ Recorded.count Recorded.is_bake added
                 = length (List.filter Driver.is_change steps)
              /\ Recorded.count Recorded.is_enqueue added
                 = length (List.filter Driver.is_frame steps)
              /\ SceneViewer.wsi_device (Driver.drive env app steps)
                 = SceneViewer.wsi_device app) as Hgen.
  { clear. induction steps as [|s steps IH]; intros app.
    - exists []. simpl. rewrite app_nil_r. repeat split; reflexivity.
    - destruct (step_graph_calls env app s)
        as (a1 & Hc1 & Hd1 & Hr1 & _ & Hn1 & Hb1 & He1).
      destruct (IH (Driver.step env app s)) as (a2 & Hc2 & Hr2 & Hn2 & Hb2 & He2 & Hd2).
      exists (a1 ++ a2). unfold Driver.drive in *. cbn [foldl].
      rewrite Hc2, Hc1, <- app_assoc. split; [reflexivity|].
      split; [intros fresh; rewrite reset_before_bake_app, Hr1, Hr2; reflexivity|].
      rewrite !count_app, Hn1, Hn2, Hb1, Hb2, He1, He2, Hd2, Hd1.
      cbn [List.filter]. destruct s; repeat split; reflexivity. }
  destruct (Hgen steps app) as (added & Hc & Hr & Hn & Hb & He & Hd).
  rewrite Hc, Hempty, app_nil_l. auto.
Qed.

(** A frame before the first swap-chain change, then a change, then a
    frame. *)
Lemma drive_resets_before_every_bake_witness :
  Recorded.count Recorded.is_bake
    (graph_calls
       (SceneViewer.graph
          (Driver.drive ∅
             {| SceneViewer.graph := Example.graph;
                SceneViewer.wsi_device := Example.device;
                SceneViewer.calls := [] |}
             [ Driver.frame 0 0;
               Driver.swapchain_changed
                 {| SceneViewer.get_device := Example.device;
                    SceneViewer.get_width := 1280; SceneViewer.get_height := 720;
                    SceneViewer.get_format := VK_FORMAT_R8G8B8A8_SRGB |};
               Driver.frame 0 0 ])))
  = 1%nat.
Proof.
  apply (drive_resets_before_every_bake ∅
           {| SceneViewer.graph := Example.graph;
              SceneViewer.wsi_device := Example.device;
              SceneViewer.calls := [] |}).
  reflexivity.
Defined.

(** ** The other collaborators over the frame loop *)

Lemma render_frame_calls (app : SceneViewer.SceneViewerApplication)
    (frame_time elapsed_time : float64) :
  SceneViewer.calls (SceneViewer.render_frame app frame_time elapsed_time)
  = SceneViewer.calls app
    ++ [ SceneViewer.animation_system_animate elapsed_time;
         SceneViewer.context_set_camera;
         SceneViewer.visible_clear;
         SceneViewer.window_set_background_color (SceneViewer.vec4_splat f32_one);
         SceneViewer.window_set_margin 5;
         SceneViewer.window_set_floating_position 40 40;
         SceneViewer.window_set_title "My Window";
         SceneViewer.scene_update_cached_transforms;
         SceneViewer.scene_refresh_per_frame;
         SceneViewer.scene_gather_visible_opaque_renderables;
         SceneViewer.scene_gather_background_renderables;
         SceneViewer.renderer_begin;
         SceneViewer.renderer_push_renderables ].
Proof.
  unfold SceneViewer.render_frame.
  cbn [SceneViewer.calls SceneViewer.with_call SceneViewer.with_graph].
  rewrite <- !app_assoc. reflexivity.
Qed.

(** X11: every iteration of [Application::run] makes the same sixteen calls
    on the collaborators other than the graph, in the same order: it polls
    the file system, begins the frame, animates, updates camera, window and
    scene, fills the renderer and ends the frame.  Of the two timer readings
    only the elapsed time reaches a collaborator. *)
Theorem run_collaborator_calls (frames : list (float64 * float64))
    (app : SceneViewer.SceneViewerApplication) :
  SceneViewer.calls (fst (SceneViewer.run frames app))
  = SceneViewer.calls app
    ++ mjoin ((fun f => Driver.frame_calls (snd f)) <$> frames).
Proof.
  unfold SceneViewer.run. cbn [fst]. revert app.
  induction frames as [|[frame_time elapsed] frames IH]; intros app.
  - simpl. rewrite app_nil_r. reflexivity.
  - cbn [SceneViewer.run_loop]. rewrite IH.
    cbn [SceneViewer.calls SceneViewer.with_call]. rewrite render_frame_calls.
    cbn [SceneViewer.calls SceneViewer.with_call].
    rewrite fmap_cons. cbn [mjoin list_join snd]. unfold Driver.frame_calls.
    rewrite <- !app_assoc. reflexivity.
Qed.

(** ** The clear values of the G-buffer over the store *)

(** X12: the two clear-value queries of the G-buffer pass ignore what is in
    the pointee and, for the color, the attachment index: asking again
    changes nothing further, and the store keeps the same set of objects. *)
Theorem gbuffer_clear_values_idempotent (index index' : Z)
    (value : SceneViewer.pointer)
    (colors : gmap nat SceneViewer.VkClearColorValue)
    (depths : gmap nat SceneViewer.VkClearDepthStencilValue) :
  snd (SceneViewer.get_clear_color index' value
         (snd (SceneViewer.get_clear_color index value colors)))
  = snd (SceneViewer.get_clear_color index value colors)
  /\ dom (snd (SceneViewer.get_clear_color index value colors)) = dom colors
  /\ snd (SceneViewer.get_clear_depth_stencil value
            (snd (SceneViewer.get_clear_depth_stencil value depths)))
     = snd (SceneViewer.get_clear_depth_stencil value depths)
  /\ dom (snd (SceneViewer.get_clear_depth_stencil value depths)) = dom depths.
Proof.
  destruct value as [p|]; simpl; [|auto].
  split; [|split; [|split]].
  - apply map_eq. intros q. destruct (decide (q = p)) as [->|Hne].
    + rewrite !lookup_alter_eq. destruct (colors !! p); reflexivity.
    + rewrite !lookup_alter_ne by congruence. reflexivity.
  - apply dom_alter_L.
  - apply map_eq. intros q. destruct (decide (q = p)) as [->|Hne].
    + rewrite !lookup_alter_eq. destruct (depths !! p); reflexivity.
    + rewrite !lookup_alter_ne by congruence. reflexivity.
  - rewrite !dom_alter_L. reflexivity.
Qed.

(** ** The reference into a variant *)

(** X13: the reference that the non-const [get<T>] returns designates the
    value the const [get<T>] returns; an assignment through it is what the
    next [get<T>] sees, assigning back the value it designates changes
    nothing, a second assignment overrides the first, and the stored type
    never changes, so [get] at another type stays undefined.  There is no
    reference into a default-constructed variant. *)
Theorem variant_reference_laws {ty : Type} `{EqDecision ty} (value_of : ty -> Type)
    (T : ty) (v : Variant.Variant value_of) :
  fst <$> VariantRef.get_ref value_of T v = Variant.get value_of T v
  /\ VariantRef.get_ref value_of T (Variant.Variant_default value_of) = None
  /\ forall current assign,
       VariantRef.get_ref value_of T v = Some (current, assign) ->
       assign current = v
       /\ (forall x, Variant.get value_of T (assign x) = Some x)
       /\ (forall x, VariantRef.get_ref value_of T (assign x) = Some (x, assign))
       /\ (forall x U, U <> T -> Variant.get value_of U (assign x) = None).
Proof.
  split; [|split; [reflexivity|]].
  - unfold VariantRef.get_ref, Variant.get.
    destruct (Variant.value value_of v) as [h|]; [|reflexivity].
    destruct (decide (Variant.holder_type value_of h = T)); reflexivity.
  - intros current assign Hr. unfold VariantRef.get_ref in Hr.
    destruct v as [[[T' val]|]]; cbn in Hr; [|discriminate].
    destruct (decide (T' = T)) as [e|_]; [|discriminate].
    destruct e. cbn in Hr. injection Hr as <- <-.
    split; [reflexivity|].
    assert (forall x : value_of T',
              decide (T' = T') = left eq_refl) as Hdec.
    { intros _. destruct (decide (T' = T')) as [e|Hne]; [|congruence].
      f_equal. apply proof_irrel. }
    split; [|split].
    + intros x. unfold Variant.get. cbn. rewrite (Hdec x). reflexivity.
    + intros x. unfold VariantRef.get_ref. cbn. rewrite (Hdec x). reflexivity.
    + intros x U Hne. unfold Variant.get. cbn.
      destruct (decide (T' = U)) as [e|_]; [congruence | reflexivity].
Qed.

(** A string variant read and overwritten through its reference. *)
Lemma variant_reference_laws_witness :
  exists assign,
    VariantRef.get_ref Example.cpp_value Example.cpp_string
      (Variant.Variant_of Example.cpp_value Example.cpp_string "old"%string)
    = Some ("old"%string, assign)
    /\ Variant.get Example.cpp_value Example.cpp_string (assign "new"%string)
       = Some "new"%string.
Proof.
  eexists. split; [reflexivity|].
  destruct (variant_reference_laws Example.cpp_value Example.cpp_string
              (Variant.Variant_of Example.cpp_value Example.cpp_string "old"%string))
    as (_ & _ & Hlaws).
  destruct (Hlaws _ _ eq_refl) as (_ & Hget & _).
  apply Hget.
Defined.
